(** * dask-geomodeling: raster and geometry blocks

    A shallow embedding of the blocks of
    [dask_geomodeling/raster/misc.py], [dask_geomodeling/geometry/base.py],
    [dask_geomodeling/geometry/set_operations.py] and
    [dask_geomodeling/geometry/sources.py], followed by the properties of
    these blocks.

    Conventions of the embedding:
    - a numpy array of integers is a [list Z] (the operations used by the
      blocks are elementwise, so the shape is dropped); the conversion to a
      fixed-width dtype is written out in [np.cast];
    - a Python exception is the [Raise] case of [result];
    - a pandas Series or DataFrame is an index (list of labels) with
      columns of cells, a missing cell (NaN / None) being [None]. *)

From Stdlib Require Import ZArith List Bool Lia QArith Qcanon Qround.
From stdpp Require Import base decidable option list gmap strings numbers sorting.

Local Open Scope string_scope.
Local Open Scope Z_scope.

(** ** Exceptions *)

Inductive exn : Type :=
| TypeError (msg : string)
| ValueError (msg : string)
| KeyError (msg : string)
| RuntimeError (msg : string)
| IndexError
| ZeroDivisionError.

Inductive result (A : Type) : Type :=
| Ok (a : A)
| Raise (e : exn).

Arguments Ok {A} a.
Arguments Raise {A} e.

#[global] Instance result_ret : MRet result := fun A a => Ok a.

#[global] Instance result_bind : MBind result := fun A B f m =>
  match m with
  | Ok a => f a
  | Raise e => Raise e
  end.

Definition raises {A : Type} (r : result A) : bool :=
  match r with
  | Ok _ => false
  | Raise _ => true
  end.

(** Python truthiness of an optional integer ([None] and [0] are falsy). *)
Definition truthy (x : option Z) : bool :=
  match x with
  | Some z => negb (z =? 0)
  | None => false
  end.

(** ** The part of numpy the blocks use *)

Module np.

Inductive dtype : Type :=
| int8 | int16 | int32 | int64
| uint8 | uint16 | uint32 | uint64.

Definition bits (d : dtype) : Z :=
  match d with
  | int8 | uint8 => 8
  | int16 | uint16 => 16
  | int32 | uint32 => 32
  | int64 | uint64 => 64
  end.

Definition signed (d : dtype) : bool :=
  match d with
  | int8 | int16 | int32 | int64 => true
  | _ => false
  end.

(** [np.iinfo(d).max] *)
Definition iinfo_max (d : dtype) : Z :=
  if signed d then 2 ^ (bits d - 1) - 1 else 2 ^ bits d - 1.

(** Conversion of an integer to dtype [d]: two's complement wrap-around. *)
Definition cast (d : dtype) (z : Z) : Z :=
  let r := z mod 2 ^ bits d in
  if signed d && (2 ^ (bits d - 1) <=? r) then r - 2 ^ bits d else r.

(** [a.astype(d)] *)
Definition astype (d : dtype) (a : list Z) : list Z := map (cast d) a.

(** [np.full(shape, fill, dtype=d)], the shape given by its size *)
Definition full (n : nat) (fill : Z) (d : dtype) : list Z :=
  replicate n (cast d fill).

(** [a == x] for a scalar [x] that may be [None] *)
Definition eq (a : list Z) (x : option Z) : list bool :=
  map (fun v => bool_decide (Some v = x)) a.

(** [a < x] and [a > x] *)
Definition lt (a : list Z) (x : Z) : list bool := map (fun v => v <? x) a.
Definition gt (a : list Z) (x : Z) : list bool := map (fun v => x <? v) a.

(** [np.all(m)] *)
Definition all (m : list bool) : bool := forallb id m.

(** [a[mask] = x] for a scalar [x]: masked assignment in place *)
Fixpoint putmask (a : list Z) (mask : list bool) (x : Z) : list Z :=
  match a, mask with
  | v :: a', b :: mask' => (if b then x else v) :: putmask a' mask' x
  | _, _ => a
  end.

(** [a[mask]]: the selected cells, in order *)
Fixpoint compress {A : Type} (a : list A) (mask : list bool) : list A :=
  match a, mask with
  | v :: a', b :: mask' =>
      if b then v :: compress a' mask' else compress a' mask'
  | _, _ => []
  end.

(** [a[mask] = new] for an array [new] with one entry per selected cell *)
Fixpoint place (a : list Z) (mask : list bool) (new : list Z) : list Z :=
  match a, mask with
  | v :: a', b :: mask' =>
      if b then
        match new with
        | x :: new' => x :: place a' mask' new'
        | [] => v :: place a' mask' []
        end
      else v :: place a' mask' new
  | _, _ => a
  end.

(** [np.diff(a)] *)
Fixpoint diff (a : list Z) : list Z :=
  match a with
  | x :: (y :: _) as a' => (y - x) :: diff a'
  | _ => []
  end.

(** [x in a] *)
Definition contains (a : list Z) (x : Z) : bool :=
  existsb (fun v => v =? x) a.

(** [np.in1d(a, b)] *)
Definition in1d (a b : list Z) : list bool := map (contains b) a.

(** [len(np.unique(a))]: the number of distinct entries *)
Definition n_unique (a : list Z) : nat := length (remove_dups a).

(** [np.append(a, x)] *)
Definition append (a : list Z) (x : Z) : list Z := a ++ [x].

(** Insertion of an index into a list of indices ordered by key. *)
Fixpoint insert_by (key : nat -> Z) (i : nat) (l : list nat) : list nat :=
  match l with
  | [] => [i]
  | j :: l' => if key j <=? key i then j :: insert_by key i l' else i :: l
  end.

(** [np.argsort(a)]: the indices that sort [a] (equal keys keep their
    order; the blocks only sort arrays of distinct values). *)
Definition argsort (a : list Z) : list nat :=
  foldr (insert_by (fun i => a !!! i)) [] (seq 0 (length a)).

(** [a[inds]] for an array of indices *)
Fixpoint take (a : list Z) (inds : list nat) : result (list Z) :=
  match inds with
  | [] => Ok []
  | i :: inds' =>
      match a !! i with
      | Some v => r ← take a inds'; Ok (v :: r)
      | None => Raise IndexError
      end
  end.

Inductive side : Type := left_side | right_side.

(** [np.searchsorted(a, v, side)] on a sorted array [a]: the number of
    entries below [v] (strictly for the left side). *)
Definition searchsorted1 (a : list Z) (sd : side) (v : Z) : nat :=
  match sd with
  | left_side => length (filter (fun x => x < v) a)
  | right_side => length (filter (fun x => x <= v) a)
  end.

Definition searchsorted (a : list Z) (vs : list Z) (sd : side) : list nat :=
  map (searchsorted1 a sd) vs.

Fixpoint nondecreasing (a : list Z) : bool :=
  match a with
  | x :: (y :: _) as a' => (x <=? y) && nondecreasing a'
  | _ => true
  end.

Fixpoint nonincreasing (a : list Z) : bool :=
  match a with
  | x :: (y :: _) as a' => (y <=? x) && nonincreasing a'
  | _ => true
  end.

(** numpy's monotonicity test of the bins of [digitize]: 1 for
    non-decreasing bins, -1 for non-increasing ones, 0 otherwise. *)
Definition monotonicity (bins : list Z) : Z :=
  if nondecreasing bins then 1
  else if nonincreasing bins then -1
  else 0.

(** [np.digitize(x, bins, right)] *)
Definition digitize (x bins : list Z) (right : bool) : result (list Z) :=
  let mono := monotonicity bins in
  if mono =? 0 then
    Raise (ValueError "bins must be monotonically increasing or decreasing")
  else
    let sd := if right then left_side else right_side in
    if mono =? -1 then
      Ok (map (fun i => Z.of_nat (length bins) - Z.of_nat i)
              (searchsorted (reverse bins) x sd))
    else Ok (map Z.of_nat (searchsorted bins x sd)).

End np.

(** ** Helpers of [dask_geomodeling.utils] *)

(** Modelled from the spec: [utils.get_uint_dtype] is not part of the
    sources at hand. It gives the smallest unsigned integer type with room
    for [n] distinct values; the comment of [Classify.dtype] fixes the
    boundary: 254 bin edges need 256 values and these fit in [uint8]. *)
Definition get_uint_dtype (n : Z) : np.dtype :=
  if n <=? 2 ^ 8 then np.uint8
  else if n <=? 2 ^ 16 then np.uint16
  else if n <=? 2 ^ 32 then np.uint32
  else np.uint64.

(** Modelled from the spec: [utils.get_dtype_max] is not part of the
    sources at hand. It gives the largest value of a dtype, which serves as
    the sentinel (fill value) of a result. *)
Definition get_dtype_max (d : np.dtype) : Z := np.iinfo_max d.

(** ** Raster data *)

(** The response of a raster block: [{"values": ..., "no_data_value": ...}],
    [{"time": ...}] or [{"meta": ...}]. *)
Inductive raster_data : Type :=
| Vals (values : list Z) (no_data_value : option Z)
| TimeData (time : list Z)
| MetaData (meta : list string).

(** The three capabilities of a block (its base class). *)
Inductive capability : Type := RasterBlock | GeometryBlock | SeriesBlock.

#[global] Instance capability_eq_dec : EqDecision capability.
Proof. solve_decision. Defined.

(** ** [raster.misc.Step] *)

Module Step.

(** The constants [left], [right] and [at] are given as they are stored in
    the grid (numpy converts them to the dtype of the grid on assignment). *)
Definition process (data : option raster_data) (left right location at_ : Z)
  : option raster_data :=
  match data with
  | Some (Vals values no_data_value) =>
      (* determine boolean index arrays *)
      let mask := np.eq values no_data_value in
      let left_index := np.lt values location in
      let at_index := np.eq values (Some location) in
      let right_index := np.gt values location in
      (* perform mapping *)
      let values := np.putmask values left_index left in
      let values := np.putmask values at_index at_ in
      let values := np.putmask values right_index right in
      (* put no data values back *)
      let values :=
        match no_data_value with
        | Some nd => np.putmask values mask nd
        | None => values
        end in
      Some (Vals values no_data_value)
  | _ => data
  end.

End Step.

(** ** [raster.misc.Classify] *)

Module Classify.

(** What the caller may pass as [bins]. *)
Inductive bins_arg : Type :=
| NotIterable
| NotOneDimensional
| NotNumeric
| Numbers (bins : list Z).

Record t : Type := Build { store : capability; bins : list Z; right : bool }.

Definition __init__ (store : capability) (bins : bins_arg) (right : bool)
  : result t :=
  match store with
  | RasterBlock =>
      match bins with
      | NotIterable => Raise (TypeError "object is not allowed")
      | NotOneDimensional => Raise (TypeError "'bins' should be one-dimensional")
      | NotNumeric => Raise (TypeError "'bins' should be numeric")
      | Numbers bins_arr =>
          let bins_diff := np.diff bins_arr in
          if negb (np.all (np.gt bins_diff 0)) || np.all (np.lt bins_diff 0)
          then Raise (TypeError "'bins' should be monotonic")
          else Ok (Build store bins_arr right)
      end
  | _ => Raise (TypeError "object is not allowed")
  end.

Definition dtype (self : t) : np.dtype :=
  get_uint_dtype (Z.of_nat (length (bins self)) + 2).

Definition fillvalue (self : t) : Z := get_dtype_max (dtype self).

Definition process (data : option raster_data) (bins : list Z) (right : bool)
  : result (option raster_data) :=
  match data with
  | Some (Vals values no_data_value) =>
      let dtype := get_uint_dtype (Z.of_nat (length bins) + 2) in
      let fillvalue := get_dtype_max dtype in
      digitized ← np.digitize values bins right;
      let result_values := np.astype dtype digitized in
      let result_values :=
        np.putmask result_values (np.eq values no_data_value) fillvalue in
      Ok (Some (Vals result_values (Some fillvalue)))
  | _ => Ok data
  end.

End Classify.

(** ** [raster.misc.Reclassify] *)

Module Reclassify.

Record t : Type := Build { data : list (Z * Z); select : bool }.

Record process_kwargs : Type := Kwargs {
  kw_dtype : np.dtype;
  kw_fillvalue : Z;
  kw_data : list (Z * Z);
  kw_select : bool
}.

(** [source, target = map(np.asarray, zip( *data))]: unpacking fails on an
    empty list of pairs. *)
Definition unzip_data (data : list (Z * Z)) : result (list Z * list Z) :=
  match data with
  | [] => Raise (ValueError "not enough values to unpack")
  | _ => Ok (data.*1, data.*2)
  end.

(** The constructor, for a store of integers and a list of pairs of
    integers (the checks of the types always pass on these). *)
Definition __init__ (data : list (Z * Z)) (select : bool) : result t :=
  match unzip_data data with
  | Raise _ => Raise (ValueError "Please supply a list of [from, to] values")
  | Ok (source, target) =>
      if negb (np.n_unique source =? length source)%nat then
        Raise (ValueError "There are duplicates in the reclassify values")
      else Ok (Build (zip source target) select)
  end.

(** The dtype of the "to" values. Integer targets are modelled, which numpy
    stores as [int64]. *)
Definition dtype (self : t) : np.dtype := np.int64.

Definition fillvalue (self : t) : Z := get_dtype_max (dtype self).

(** The second pair of [get_sources_and_requests]; the first one forwards
    the request to the store. *)
Definition get_process_kwargs (self : t) : process_kwargs :=
  {| kw_dtype := dtype self;
     kw_fillvalue := fillvalue self;
     kw_data := data self;
     kw_select := select self |}.

Definition process (store_data : option raster_data) (kw : process_kwargs)
  : result (option raster_data) :=
  match store_data with
  | Some (Vals values no_data_value) =>
      '(source, target) ← unzip_data (kw_data kw);
      let dtype := kw_dtype kw in
      let fillvalue := kw_fillvalue kw in
      (* add the nodata value to the source array and map it to the target
         nodata *)
      let '(source, target) :=
        match no_data_value with
        | Some nd =>
            if negb (np.contains source nd)
            then (np.append source nd, np.append target fillvalue)
            else (source, target)
        | None => (source, target)
        end in
      (* sort the source and target values *)
      let inds := np.argsort source in
      source ← np.take source inds;
      target ← np.take target inds;
      (* create the result array *)
      let result :=
        if kw_select kw then np.full (length values) fillvalue dtype
        else np.astype dtype values in
      (* find all values in the source data that are to be mapped *)
      let mask := np.in1d values source in
      (* place the target values (this also maps nodata values) *)
      new ← np.take target
              (np.searchsorted source (np.compress values mask) np.left_side);
      Ok (Some (Vals (np.place result mask (np.astype dtype new))
                     (Some fillvalue)))
  | _ => Ok store_data
  end.

End Reclassify.

(** ** Bounding boxes and the geometry engine *)

(** [(x1, y1, x2, y2)] *)
Definition bbox : Type := Qc * Qc * Qc * Qc.

(** The geometry engine (shapely / geopandas), of which the blocks only use
    the interface. *)
Class GeometryEngine : Type := {
  geometry : Type;
  (** [shapely.geometry.box(x1, y1, x2, y2)] *)
  box : bbox -> geometry;
  (** [a.difference(b)] *)
  difference : geometry -> geometry -> geometry;
  (** [a.intersects(b)] *)
  intersects : geometry -> geometry -> bool;
  (** [a.centroid.within(b)] *)
  centroid_within : geometry -> geometry -> bool;
  (** [a.bounds] *)
  bounds : geometry -> bbox;
  (** [utils.shapely_transform(a, src_srs, dst_srs)] *)
  shapely_transform : geometry -> string -> string -> geometry;
  (** [GeoSeries.total_bounds] of a column of geometries *)
  total_bounds : list (option geometry) -> bbox;
  geometry_eq_dec :: EqDecision geometry
}.

(** A cell of a table of features: a geometry or a property value. A
    missing cell (NaN, None) is [None : option cell]. *)
Inductive cell `{GeometryEngine} : Type :=
| Geom (g : geometry)
| Num (z : Z)
| Str (s : string).

#[global] Instance cell_eq_dec `{GeometryEngine} : EqDecision cell.
Proof. solve_decision. Defined.

(** A request to a geometry block. *)
Record geometry_request `{GeometryEngine} : Type := GeometryRequest {
  req_mode : string;
  req_geometry : geometry;
  req_projection : string;
  req_min_size : option Qc;
  req_limit : option Z;
  req_start : option Z;
  req_stop : option Z;
  req_filters : list (string * cell)
}.

Arguments GeometryRequest {H} _ _ _ _ _ _ _ _.

(** ** [raster.misc.Rasterize] *)

Module Rasterize.

(** The dtype of the raster: ['bool'] or an integer type. *)
Inductive raster_dtype : Type :=
| Bool
| Int (d : np.dtype).

Record t : Type := Build {
  column_name : option string;
  dtype : raster_dtype;
  limit : option Z
}.

(** A request to a raster block. *)
Record request : Type := Request {
  r_mode : string;
  r_bbox : bbox;
  r_width : Z;
  r_height : Z;
  r_projection : string;
  r_start : option Z;
  r_stop : option Z
}.

Inductive process_kwargs : Type :=
| KwTime
| KwMeta
| KwVals (column_name : option string) (dtype : raster_dtype)
         (no_data_value : option Z) (width height : Z) (bbox : bbox).

(** The first component of the pairs that the block returns. *)
Inductive source : Type :=
| PeriodEnd                       (* [self.period[-1]] *)
| NoSource                        (* [None] *)
| TheSource                       (* [self.source] *)
| Literal (kw : process_kwargs).

(** The constructor, for a column name that is a string or [None] and a
    limit that is an integer or [None]. *)
Definition __init__ (source : capability) (column_name : option string)
  (dtype : option raster_dtype) (limit : option Z) : result t :=
  if negb (bool_decide (source = GeometryBlock)) then
    Raise (TypeError "object is not allowed")
  else
    let dtype :=
      match dtype with
      | None => (* set default values *)
          match column_name with
          | None => Bool
          | Some _ => Int np.int32
          end
      | Some d => d
      end in
    if truthy limit && bool_decide (default 0 limit < 1) then
      Raise (ValueError "Limit should be greater than 1")
    else Ok (Build column_name dtype limit).

Definition fillvalue (self : t) : option Z :=
  match dtype self with
  | Bool => None
  | Int d => Some (get_dtype_max d)
  end.

(** Python's [a / b] on numbers *)
Definition truediv (a : Qc) (b : Z) : result Qc :=
  if b =? 0 then Raise ZeroDivisionError else Ok (a / Qc_of_Z b)%Qc.

Definition min_ (a b : Qc) : Qc := if decide (b < a)%Qc then b else a.

Section plan.
Context `{GeometryEngine}.
(** [config.get("geomodeling.geometry-limit")] *)
Variable geometry_limit : Z.

Definition get_sources_and_requests (self : t) (request : request)
  : result (list (source * option geometry_request)) :=
  (* first handle the 'time' and 'meta' requests *)
  let mode := r_mode request in
  if decide (mode = "time") then Ok [(PeriodEnd, None); (Literal KwTime, None)]
  else if decide (mode = "meta") then Ok [(NoSource, None); (Literal KwMeta, None)]
  else if decide (mode ≠ "vals") then Raise (ValueError "Unknown mode")
  else
    (* build the request to be sent to the geometry source *)
    let '(x1, y1, x2, y2) := r_bbox request in
    let width := r_width request in
    let height := r_height request in
    (* be strict about the bbox, it may lead to segfaults else *)
    min_size ←
      (if decide (x2 = x1 ∧ y2 = y1) then Ok None
       else if decide (x1 < x2 ∧ y1 < y2)%Qc then
         dx ← truediv (x2 - x1)%Qc width;
         dy ← truediv (y2 - y1)%Qc height;
         Ok (Some (min_ dx dy))
       else Raise (ValueError "Invalid bbox"));
    let limit :=
      match limit self with
      | Some l => Some l
      | None => Some geometry_limit
      end in
    let geom_request :=
      {| req_mode := "intersects";
         req_geometry := box (r_bbox request);
         req_projection := r_projection request;
         req_min_size := min_size;
         req_limit := limit;
         req_start := r_start request;
         req_stop := r_stop request;
         req_filters := [] |} in
    (* keep some variables for use in process() *)
    let process_kwargs :=
      KwVals (column_name self) (dtype self) (fillvalue self)
             width height (r_bbox request) in
    Ok [(TheSource, Some geom_request); (Literal process_kwargs, None)].

End plan.

End Rasterize.

(** ** The part of pandas / geopandas the blocks use *)

Module pd.

Section frames.
Context `{GeometryEngine}.

(** A row label; labels come from a column of cells ([set_index]). *)
Definition label : Type := option cell.

Record Series : Type := MkSeries {
  s_index : list label;
  s_values : list (option cell)
}.

Record DataFrame : Type := MkFrame {
  index : list label;
  columns : gmap string (list (option cell))
}.

(** [gpd.GeoDataFrame([])] *)
Definition empty_frame : DataFrame := {| index := []; columns := ∅ |}.

(** [len(df)] *)
Definition len (df : DataFrame) : nat := length (index df).

(** [df[name]] *)
Definition getitem (df : DataFrame) (name : string) : result Series :=
  match columns df !! name with
  | Some col => Ok {| s_index := index df; s_values := col |}
  | None => Raise (KeyError name)
  end.

(** The value of a series at a label, missing when the label is absent. *)
Definition loc (s : Series) (l : label) : option cell :=
  match list_find (fun k => k = l) (s_index s) with
  | Some (i, _) => mjoin (s_values s !! i)
  | None => None
  end.

(** [s.reindex(new_index)]: the series itself when the index is the same
    one, else the values looked up by label, which pandas refuses for a
    series with duplicate labels. *)
Definition reindex (s : Series) (new_index : list label) : result Series :=
  if decide (s_index s = new_index) then Ok s
  else if decide (NoDup (s_index s)) then
    Ok {| s_index := new_index; s_values := map (loc s) new_index |}
  else Raise (ValueError "cannot reindex on an axis with duplicate labels").

(** [s.isna()] *)
Definition isna (s : Series) : list bool :=
  map (fun c => bool_decide (c = None)) (s_values s).

(** [s[mask] = other[mask]] for two series over the same index *)
Fixpoint where_ (x : list (option cell)) (mask : list bool)
  (y : list (option cell)) : list (option cell) :=
  match x, mask, y with
  | vx :: x', b :: mask', vy :: y' =>
      (if b then vy else vx) :: where_ x' mask' y'
  | _, _, _ => x
  end.

Definition setmask (s : Series) (mask : list bool) (other : Series) : Series :=
  {| s_index := s_index s; s_values := where_ (s_values s) mask (s_values other) |}.

(** [a.difference(b)] on two geometry series over the same index; a
    missing geometry on either side gives a missing result. *)
Definition difference_cell (a b : option cell) : option cell :=
  match a, b with
  | Some (Geom ga), Some (Geom gb) => Some (Geom (difference ga gb))
  | _, _ => None
  end.

Definition series_difference (a b : Series) : Series :=
  {| s_index := s_index a;
     s_values := zip_with difference_cell (s_values a) (s_values b) |}.

(** [df.set_geometry(series)]: a copy with the geometry column replaced *)
Definition set_geometry (df : DataFrame) (s : Series) : DataFrame :=
  {| index := index df; columns := <["geometry" := s_values s]> (columns df) |}.

(** [df.set_index(name)] *)
Definition set_index (df : DataFrame) (name : string) : result DataFrame :=
  match columns df !! name with
  | Some col => Ok {| index := col; columns := delete name (columns df) |}
  | None => Raise (KeyError name)
  end.

(** [df[mask]]: the rows selected by a boolean mask *)
Definition filter_rows (df : DataFrame) (mask : list bool) : DataFrame :=
  {| index := np.compress (index df) mask;
     columns := (fun col => np.compress col mask) <$> columns df |}.

(** The length of the Python slice [[:n]] of a sequence of length [len]. *)
Definition slice_stop (len : nat) (n : Z) : nat :=
  if 0 <=? n then Z.to_nat n else Z.to_nat (Z.of_nat len + n).

(** [df.iloc[:n]] *)
Definition iloc_to (df : DataFrame) (n : Z) : DataFrame :=
  let k := slice_stop (len df) n in
  {| index := take k (index df); columns := take k <$> columns df |}.

(** A value assigned to a column: a scalar (broadcast) or a series. *)
Inductive value : Type :=
| Scalar (c : option cell)
| ASeries (s : Series).

(** [df[name] = value] *)
Definition setitem (df : DataFrame) (name : string) (v : value)
  : result DataFrame :=
  match v with
  | Scalar c =>
      Ok {| index := index df;
            columns := <[name := replicate (len df) c]> (columns df) |}
  | ASeries s =>
      s' ← reindex s (index df);
      Ok {| index := index df;
            columns := <[name := s_values s']> (columns df) |}
  end.

End frames.

End pd.

(** The response of a geometry block: [{"features": ..., "projection": ...}],
    [{"extent": ..., "projection": ...}], or the marker
    [{"empty": True, "projection": ...}] of [Difference]. *)
Inductive geometry_data `{GeometryEngine} : Type :=
| Features (features : pd.DataFrame) (projection : string)
| Extent (extent : option bbox) (projection : string)
| EmptyMarker (projection : string).

Definition data_projection `{GeometryEngine} (data : geometry_data) : string :=
  match data with
  | Features _ p | Extent _ p | EmptyMarker p => p
  end.

(** ** Blocks and their arguments *)

(** A Python value passed to a constructor: a block (its class, its
    capability and its arguments), or a literal. *)
#[warnings="-register-all"] Inductive pyarg : Type :=
| Blk (cls : string) (cap : capability) (args : list pyarg)
| PStr (s : string)
| PNum (z : Z)
| PNone.

Definition isinstance (x : pyarg) (c : capability) : bool :=
  match x with
  | Blk _ cap _ => bool_decide (cap = c)
  | _ => false
  end.

Definition is_str (x : pyarg) : bool :=
  match x with
  | PStr _ => true
  | _ => false
  end.

(** [l[::2]] *)
Fixpoint every_other {A : Type} (l : list A) : list A :=
  match l with
  | x :: _ :: l' => x :: every_other l'
  | [x] => [x]
  | [] => []
  end.

(** Modelled from the spec: [Block.__init__] of [dask_geomodeling.core] is
    not part of the sources at hand. A node holds its kind and its ordered
    argument tuple and is never mutated. *)
Definition Block__init__ (cls : string) (cap : capability) (args : list pyarg)
  : pyarg := Blk cls cap args.

(** ** [geometry.base.BaseSingleSeries] *)

Module BaseSingleSeries.

Definition __init__ (cls : string) (source : pyarg) (args : list pyarg)
  : result pyarg :=
  if negb (isinstance source SeriesBlock)
  then Raise (TypeError "object is not allowed")
  else Ok (Block__init__ cls SeriesBlock (source :: args)).

End BaseSingleSeries.

(** Modelled from the spec: the class [Multiply] of the geometry package is
    not part of the sources at hand. It is the dedicated operation of the
    product of a scalar series and a second operand, a series block built
    from its two arguments. *)
Definition Multiply (source other : pyarg) : result pyarg :=
  BaseSingleSeries.__init__ "Multiply" source [other].

(** ** [geometry.base.SeriesBlock] *)

Module SeriesBlock_.

Definition __mul__ (self other : pyarg) : result pyarg := Multiply self other.

Definition __neg__ (self : pyarg) : result pyarg := Multiply self (PNum (-1)).

End SeriesBlock_.

(** ** [geometry.base.SetSeriesBlock] *)

Module SetSeriesBlock.

Definition __init__ (source column value : pyarg) (args : list pyarg)
  : result pyarg :=
  if negb (isinstance source GeometryBlock)
  then Raise (TypeError "object is not allowed")
  else
    let args := column :: value :: args in
    if negb (length args mod 2 =? 0)%nat
    then Raise (ValueError "The number of arguments should be even")
    else if negb (forallb is_str (every_other args))
    then Raise (TypeError "object is not allowed")
    else Ok (Block__init__ "SetSeriesBlock" GeometryBlock (source :: args)).

(** [self.args] *)
Definition args (self : pyarg) : list pyarg :=
  match self with
  | Blk _ _ args => args
  | _ => []
  end.

(** [set(l)] for a list of column names *)
Definition set_of_names (l : list pyarg) : gset string :=
  list_to_set (omap (fun x => match x with PStr s => Some s | _ => None end) l).

(** [self.columns], given the columns of the source *)
Definition columns (source_columns : gset string) (self : pyarg) : gset string :=
  source_columns ∪ set_of_names (every_other (drop 1 (args self))).

Section process.
Context `{GeometryEngine}.

(** An evaluated argument: a column name or constant, or a series. *)
Definition evaluated : Type := pd.value.

(** The loop [for column, value in zip(...): features[column] = value];
    the column names are strings (checked by the constructor). *)
Fixpoint assign (features : pd.DataFrame) (pairs : list (evaluated * evaluated))
  : result pd.DataFrame :=
  match pairs with
  | [] => Ok features
  | (pd.Scalar (Some (Str column)), value) :: pairs' =>
      features ← pd.setitem features column value;
      assign features pairs'
  | _ :: _ => Raise (TypeError "column names are strings")
  end.

Definition process (data : geometry_data) (col_val_pairs : list evaluated)
  : result geometry_data :=
  match data with
  | Features features projection =>
      if (pd.len features =? 0)%nat then Ok data
      else
        features ← assign features
          (zip (every_other col_val_pairs) (every_other (drop 1 col_val_pairs)));
        Ok (Features features projection)
  | _ => Ok data
  end.

End process.

End SetSeriesBlock.

(** ** [geometry.set_operations.Difference] *)

Module Difference.

(** The first component of the pairs that the block returns. *)
Inductive source `{GeometryEngine} : Type :=
| Source                          (* [self.source] *)
| Other                           (* [self.other] *)
| Literal (data : geometry_data).

Section block.
Context `{GeometryEngine}.

(** [self.source.get_data( **request)] and [self.other.get_data( **request)] *)
Variable source_get_data : geometry_request -> result geometry_data.
Variable other_get_data : geometry_request -> result geometry_data.

(** [request.copy()] with the key ["mode"] replaced *)
Definition with_mode (request : geometry_request) (m : string)
  : geometry_request :=
  {| req_mode := m;
     req_geometry := req_geometry request;
     req_projection := req_projection request;
     req_min_size := req_min_size request;
     req_limit := req_limit request;
     req_start := req_start request;
     req_stop := req_stop request;
     req_filters := req_filters request |}.

(** [request.copy()] with the key ["geometry"] replaced *)
Definition with_geometry (request : geometry_request) (g : geometry)
  : geometry_request :=
  {| req_mode := req_mode request;
     req_geometry := g;
     req_projection := req_projection request;
     req_min_size := req_min_size request;
     req_limit := req_limit request;
     req_start := req_start request;
     req_stop := req_stop request;
     req_filters := req_filters request |}.

(** [data["extent"]] *)
Definition get_extent (data : geometry_data) : result (option bbox) :=
  match data with
  | Extent extent _ => Ok extent
  | _ => Raise (KeyError "extent")
  end.

(** [data["features"]] *)
Definition get_features (data : geometry_data) : result pd.DataFrame :=
  match data with
  | Features features _ => Ok features
  | _ => Raise (KeyError "features")
  end.

Definition get_sources_and_requests (request : geometry_request)
  : result (list (source * option geometry_request)) :=
  if decide (req_mode request = "extent") then
    (* the resulting extent might be smaller than the source's extent,
       but we would have to execute the Difference in order to know. *)
    Ok [(Source, Some request)]
  else
    (* we need to get the extent of the geometries in source, in order to
       fetch all needed geometries in other *)
    let extent_request := with_mode request "extent" in
    data ← source_get_data extent_request;
    extent ← get_extent data;
    match extent with
    | None => (* shortcut when there are no geometries present *)
        let projection := req_projection request in
        Ok [(Literal (EmptyMarker projection), None)]
    | Some extent =>
        let other_request := with_geometry request (box extent) in
        Ok [(Source, Some request); (Other, Some other_request)]
    end.

Definition process (source_data : geometry_data)
  (other_data : option geometry_data) : result geometry_data :=
  match other_data with
  | None =>
      match source_data with
      | EmptyMarker projection => (* catches the no-geometry shortcut *)
          Ok (Features pd.empty_frame projection)
      | _ => Ok source_data
      end
  | Some other_data =>
      a ← get_features source_data;
      b ← get_features other_data;
      if (pd.len a =? 0)%nat || (pd.len b =? 0)%nat then
        Ok source_data (* do nothing *)
      else
        a_series ← pd.getitem a "geometry";
        b_geometry ← pd.getitem b "geometry";
        b_series ← pd.reindex b_geometry (pd.s_index a_series);
        let result_series := pd.series_difference a_series b_series in
        (* re-insert geometries that were missing in b (we want A - None = A) *)
        let missing_in_b := pd.isna b_series in
        let result_series := pd.setmask result_series missing_in_b a_series in
        let result := pd.set_geometry a result_series in
        Ok (Features result (data_projection source_data))
  end.

(** Modelled from the spec: the evaluator ([Block.get_data]) is not part of
    the sources at hand. It asks the block for its pairs, resolves each pair
    (a pair without request is taken as it is, the others are evaluated by
    the block they name), and hands the results in order to [process]. *)
Definition resolve (pair : source * option geometry_request)
  : result geometry_data :=
  match pair with
  | (Literal data, None) => Ok data
  | (Source, Some request) => source_get_data request
  | (Other, Some request) => other_get_data request
  | _ => Raise (TypeError "not a block or no request")
  end.

Definition get_data (request : geometry_request) : result geometry_data :=
  pairs ← get_sources_and_requests request;
  resolved ← mapM resolve pairs;
  match resolved with
  | [source_data] => process source_data None
  | [source_data; other_data] => process source_data (Some other_data)
  | _ => Raise (TypeError "process() takes from 1 to 2 positional arguments")
  end.

End block.

End Difference.

(** ** [geometry.sources.GeometryFileSource] *)

Module GeometryFileSource.

(** The request that [get_sources_and_requests] hands to [process]: the
    incoming request with the layer and the id field of the block. *)
Record file_request `{GeometryEngine} : Type := FileRequest {
  request : geometry_request;
  layer : option string;
  id_field : string
}.

Arguments FileRequest {H} _ _ _.

Section process.
Context `{GeometryEngine}.

(** [utils.safe_abspath(url, settings["FILE_ROOT"])] *)
Variable safe_abspath : string -> result string.
(** [gpd.GeoDataFrame.from_file(path, bbox=..., layer=...)] *)
Variable from_file : string -> geometry -> option string -> pd.DataFrame.
(** [utils.crs_to_srs(f["geometry"].crs)], the projection of the file *)
Variable file_srs : string.
(** [settings["GEOMETRY_LIMIT"]] *)
Variable GEOMETRY_LIMIT : Z.

(** The loop over [request["filters"]] that builds the mask. *)
Fixpoint filter_mask (f : pd.DataFrame) (filters : list (string * cell))
  (mask : option (list bool)) : option (list bool) :=
  match filters with
  | [] => mask
  | (field, value) :: filters' =>
      match pd.columns f !! field with
      | None => filter_mask f filters' mask
      | Some col =>
          let _mask := map (fun c => bool_decide (c = Some value)) col in
          filter_mask f filters'
            (Some (match mask with
                   | None => _mask
                   | Some mask => zip_with andb mask _mask
                   end))
      end
  end.

(** A function of a geometry applied to a cell, with a default for the
    cells without geometry. *)
Definition on_geometry {A : Type} (d : A) (f : geometry -> A) (c : option cell)
  : A :=
  match c with
  | Some (Geom g) => f g
  | _ => d
  end.

Definition transform_cell (projection : string) (c : option cell)
  : option cell :=
  match c with
  | Some (Geom g) => Some (Geom (shapely_transform g file_srs projection))
  | _ => c
  end.

(** [(widths > min_size) | (heights > min_size)] of one geometry *)
Definition large_enough (min_size : Qc) (g : geometry) : bool :=
  let '(minx, miny, maxx, maxy) := bounds g in
  bool_decide (min_size < maxx - minx)%Qc || bool_decide (min_size < maxy - miny)%Qc.

(** Python truthiness of [request.get("min_size")] *)
Definition truthy_size (min_size : option Qc) : bool :=
  match min_size with
  | Some m => negb (bool_decide (m = 0%Qc))
  | None => false
  end.

(** The last step of [process] in the modes 'centroid' and 'intersects':
    truncate the number of geometries if necessary. *)
Definition apply_limit (limit : option Z) (f : pd.DataFrame)
  : result pd.DataFrame :=
  if truthy limit && bool_decide (default 0 limit < Z.of_nat (pd.len f)) then
    Ok (pd.iloc_to f (default 0 limit))
  else if bool_decide (limit = None) then
    let global_limit := GEOMETRY_LIMIT in
    if bool_decide (global_limit < Z.of_nat (pd.len f)) then
      Raise (RuntimeError
        "The amount of returned geometries exceeded the maximum")
    else Ok f
  else Ok f.

(** The rows that [process] selects from a non-empty file: the field
    filters, the change of projection, the filter on [min_size] and the
    test against the requested geometry. *)
Definition select (request : file_request) (f : pd.DataFrame)
  : result pd.DataFrame :=
  let req := GeometryFileSource.request request in
  let filt_geom := req_geometry req in
  f ← pd.set_index f (id_field request);
  (* apply the non-geometry field filters first *)
  let f :=
    match filter_mask f (req_filters req) None with
    | Some mask => pd.filter_rows f mask
    | None => f
    end in
  (* convert the data to the requested crs *)
  g ← pd.getitem f "geometry";
  let f :=
    pd.set_geometry f
      (pd.MkSeries (pd.s_index g)
         (map (transform_cell (req_projection req)) (pd.s_values g))) in
  (* compute the bounds of each geometry and filter on min_size *)
  f ←
    (if truthy_size (req_min_size req) then
       g ← pd.getitem f "geometry";
       Ok (pd.filter_rows f
             (map (on_geometry false (large_enough (default 0%Qc (req_min_size req))))
                  (pd.s_values g)))
     else Ok f);
  (* only return geometries that truly intersect the requested geometry *)
  g ← pd.getitem f "geometry";
  if decide (req_mode req = "centroid") then
    Ok (pd.filter_rows f
          (map (on_geometry false (fun x => centroid_within x filt_geom))
               (pd.s_values g)))
  else
    Ok (pd.filter_rows f
          (map (on_geometry false (fun x => intersects x filt_geom))
               (pd.s_values g))).

Definition process (url : string) (request : file_request)
  : result geometry_data :=
  let req := GeometryFileSource.request request in
  path ← safe_abspath url;
  (* acquire the data, filtering on the filt_geom bbox *)
  let f := from_file path (req_geometry req) (layer request) in
  if (pd.len f =? 0)%nat then
    (* return directly if there is no data *)
    if decide (req_mode req = "extent")
    then Ok (Extent None (req_projection req))
    else Ok (Features pd.empty_frame (req_projection req))
  else
    f ← select request f;
    if decide (req_mode req = "extent") then
      g ← pd.getitem f "geometry";
      Ok (Extent
            (Some (total_bounds
                     (map (on_geometry None (fun x => Some x)) (pd.s_values g))))
            (req_projection req))
    else (* this takes modes 'centroid' and 'intersects' *)
      f ← apply_limit (req_limit req) f;
      Ok (Features f (req_projection req)).

End process.

End GeometryFileSource.

(** ** Notions used to state the properties *)

(** *** The mapping of [Reclassify] *)

(** The target that a list of [from, to] pairs gives to a value. *)
Fixpoint assoc (m : list (Z * Z)) (v : Z) : option Z :=
  match m with
  | [] => None
  | (k, t) :: m' => if decide (k = v) then Some t else assoc m' v
  end.

(** The pairs in force in [Reclassify.process]: the pairs of the block, and
    the pair that sends the no-data value of the store to the fill value,
    unless the block maps the no-data value itself. *)
Definition mapping (kw : Reclassify.process_kwargs) (nd : option Z)
  : list (Z * Z) :=
  match nd with
  | Some n =>
      if np.contains (Reclassify.kw_data kw).*1 n then Reclassify.kw_data kw
      else Reclassify.kw_data kw ++ [(n, Reclassify.kw_fillvalue kw)]
  | None => Reclassify.kw_data kw
  end.

(** The cell that [Reclassify.process] writes for an input cell [v]. *)
Definition reclassify_cell (kw : Reclassify.process_kwargs) (nd : option Z)
  (v : Z) : Z :=
  match assoc (mapping kw nd) v with
  | Some t => np.cast (Reclassify.kw_dtype kw) t
  | None =>
      if Reclassify.kw_select kw
      then np.cast (Reclassify.kw_dtype kw) (Reclassify.kw_fillvalue kw)
      else np.cast (Reclassify.kw_dtype kw) v
  end.

(** *** Windows of [Rasterize] *)

(** A window without interior: an edge has length zero or is reversed. *)
Definition degenerate_window (b : bbox) : Prop :=
  let '(x1, y1, x2, y2) := b in (x2 ≤ x1)%Qc \/ (y2 ≤ y1)%Qc.

(** *** Argument tuples of [SetSeriesBlock] *)

(** The argument tuple [c1, v1, ..., ck, vk] of a list of pairs. *)
Definition interleave {A : Type} (l : list (A * A)) : list A :=
  flat_map (fun p => [p.1; p.2]) l.

(** A column name and its value, as constructor arguments. *)
Definition named (p : string * pyarg) : pyarg * pyarg := (PStr p.1, p.2).

(** A column name and its value, as evaluated arguments of [process]. *)
Definition name_pair `{GeometryEngine} (p : string * pd.value)
  : pd.value * pd.value :=
  (pd.Scalar (Some (Str p.1)), p.2).

(** The cell at label [l] of an assigned value: the constant itself, or the
    cell of the series at that label. *)
Definition value_at `{GeometryEngine} (v : pd.value) (l : pd.label)
  : option cell :=
  match v with
  | pd.Scalar c => c
  | pd.ASeries s => pd.loc s l
  end.

(** A series can be aligned with any index when its labels are distinct
    (and it has one value per label). *)
Definition alignable `{GeometryEngine} (v : pd.value) : Prop :=
  match v with
  | pd.Scalar _ => True
  | pd.ASeries s =>
      NoDup (pd.s_index s) /\ length (pd.s_values s) = length (pd.s_index s)
  end.

(** The columns after one assignment [features[c] = v]. *)
Definition assigned `{GeometryEngine} (f : pd.DataFrame)
  (cols : gmap string (list (option cell))) (p : string * pd.value)
  : gmap string (list (option cell)) :=
  <[p.1 := map (value_at p.2) (pd.index f)]> cols.

(** A response without rows: no table of features, or an empty one. *)
Definition no_rows `{GeometryEngine} (data : geometry_data) : Prop :=
  match data with
  | Features features _ => pd.len features = 0%nat
  | _ => True
  end.

(** ** A geometry engine to run the blocks on

    Axis-parallel rectangles with integer corners stand for the geometries
    in the concrete runs below. *)

Module Rectangles.

(** [(x1, y1, x2, y2)] *)
Definition rect : Type := Z * Z * Z * Z.

(** The smallest rectangle with integer corners around a bounding box. *)
Definition around (b : bbox) : rect :=
  let '(x1, y1, x2, y2) := b in
  (Qfloor x1, Qfloor y1, Qceiling x2, Qceiling y2).

Definition overlap (a b : rect) : bool :=
  let '(ax1, ay1, ax2, ay2) := a in
  let '(bx1, by1, bx2, by2) := b in
  (ax1 <=? bx2) && (bx1 <=? ax2) && (ay1 <=? by2) && (by1 <=? ay2).

Definition covers (b a : rect) : bool :=
  let '(ax1, ay1, ax2, ay2) := a in
  let '(bx1, by1, bx2, by2) := b in
  (bx1 <=? ax1) && (ax2 <=? bx2) && (by1 <=? ay1) && (ay2 <=? by2).

(** What is left of [a] is [a] itself, or nothing (a point) when [b]
    covers it. *)
Definition minus (a b : rect) : rect :=
  let '(ax1, ay1, ax2, ay2) := a in
  if covers b a then (ax1, ay1, ax1, ay1) else a.

Definition centroid_in (a b : rect) : bool :=
  let '(ax1, ay1, ax2, ay2) := a in
  let '(bx1, by1, bx2, by2) := b in
  (2 * bx1 <=? ax1 + ax2) && (ax1 + ax2 <=? 2 * bx2)
  && (2 * by1 <=? ay1 + ay2) && (ay1 + ay2 <=? 2 * by2).

Definition hull (a b : rect) : rect :=
  let '(ax1, ay1, ax2, ay2) := a in
  let '(bx1, by1, bx2, by2) := b in
  (Z.min ax1 bx1, Z.min ay1 by1, Z.max ax2 bx2, Z.max ay2 by2).

Definition corners (a : rect) : bbox :=
  let '(x1, y1, x2, y2) := a in
  (Qc_of_Z x1, Qc_of_Z y1, Qc_of_Z x2, Qc_of_Z y2).

Definition hull_of (l : list (option rect)) : bbox :=
  match omap id l with
  | [] => corners (0, 0, 0, 0)
  | a :: l' => corners (foldr hull a l')
  end.

Definition engine : GeometryEngine :=
  {| geometry := rect;
     box := around;
     difference := minus;
     intersects := overlap;
     centroid_within := centroid_in;
     bounds := corners;
     shapely_transform := fun a _ _ => a;
     total_bounds := hull_of;
     geometry_eq_dec := _ |}.

End Rectangles.

(** Concrete inputs: a file of three parcels, and two tables of features. *)

Module Parcels.

#[local] Existing Instance Rectangles.engine.

Definition q (z : Z) : Qc := Qc_of_Z z.

Definition rasterize : Rasterize.t := Rasterize.Build None Rasterize.Bool None.

Definition raster_request (b : bbox) : Rasterize.request :=
  Rasterize.Request "vals" b 256 256 "EPSG:28992" None None.

(** The table read from the file, before [set_index]. *)
Definition file : pd.DataFrame :=
  pd.MkFrame
    [Some (Num 0); Some (Num 1); Some (Num 2)]
    (<["id" := [Some (Num 10); Some (Num 11); Some (Num 12)]]>
       (<["geometry" :=
            [Some (Geom (0, 0, 1, 1));
             Some (Geom (1, 1, 2, 2));
             Some (Geom (2, 2, 3, 3))]]> ∅)).

(** An 'intersects' request for a window that holds all three parcels. *)
Definition window (limit : option Z) : GeometryFileSource.file_request :=
  GeometryFileSource.FileRequest
    (GeometryRequest "intersects" (0, 0, 10, 10) "EPSG:28992"
       None limit None None [])
    None "id".

(** [GeometryFileSource.process] on that file. *)
Definition read (GEOMETRY_LIMIT : Z) (limit : option Z) : result geometry_data :=
  GeometryFileSource.process (fun url => Ok url) (fun _ _ _ => file)
    "EPSG:28992" GEOMETRY_LIMIT "parcels.shp" (window limit).

(** The labels of the rows of a response with features. *)
Definition labels (r : result geometry_data) : option (list pd.label) :=
  match r with
  | Ok (Features f _) => Some (pd.index f)
  | _ => None
  end.

(** Features 10, 11 and 12, and features 11 and 15 to subtract. *)
Definition a_geometry : list (option cell) :=
  [Some (Geom (0, 0, 1, 1)); Some (Geom (1, 1, 2, 2)); Some (Geom (2, 2, 3, 3))].

Definition a : pd.DataFrame :=
  pd.MkFrame [Some (Num 10); Some (Num 11); Some (Num 12)]
    (<["geometry" := a_geometry]> ∅).

Definition b_geometry : list (option cell) :=
  [Some (Geom (0, 0, 5, 5)); Some (Geom (7, 7, 8, 8))].

Definition b : pd.DataFrame :=
  pd.MkFrame [Some (Num 11); Some (Num 15)] (<["geometry" := b_geometry]> ∅).

Definition request : geometry_request :=
  GeometryRequest "intersects" (0, 0, 10, 10) "EPSG:28992"
    None None None None [].

End Parcels.

(** * The other blocks of the four modules *)

(** A grid without no-data value is a boolean grid (cells 0 and 1), in
    which numpy stores [None] as [False]: the cell that an assignment of
    the no-data value writes. *)
Definition stored_no_data (no_data_value : option Z) : Z := default 0 no_data_value.

(** Python's [max(a, b)] on numbers *)
Definition max_ (a b : Qc) : Qc := if decide (a < b)%Qc then b else a.

(** ** [raster.misc.Clip] *)

Module Clip.

(** The response of the source raster, seen by the dtype of its values: a
    boolean grid, or any other response. *)
Inductive source_response : Type :=
| BoolGrid (values : list bool)
| Response (data : raster_data).

(** [source_data["values"] == source_data["no_data_value"]], or the
    negation of a boolean grid *)
Definition source_mask (source_data : source_response) : result (list bool) :=
  match source_data with
  | BoolGrid values => Ok (map negb values)
  | Response (Vals values no_data_value) => Ok (np.eq values no_data_value)
  | Response _ => Raise (KeyError "values")
  end.

Definition process (data : option raster_data)
  (source_data : option source_response) : result (option raster_data) :=
  match data with
  | None => Ok None
  | Some (Vals values no_data_value) =>
      (* check if values contain data *)
      if np.all (np.eq values no_data_value) then Ok data
      else
        (* make the boolean mask *)
        match source_data with
        | None => Ok None
        | Some source_data =>
            mask ← source_mask source_data;
            (* adjust values *)
            Ok (Some (Vals (np.putmask values mask (stored_no_data no_data_value))
                           no_data_value))
        end
  | Some _ => Ok data
  end.

(** [self.extent], given the extents of the store and of the source *)
Definition extent (result mask : option bbox) : option bbox :=
  match result, mask with
  | Some (rx1, ry1, rx2, ry2), Some (mx1, my1, mx2, my2) =>
      (* return the overlapping box *)
      let x1 := max_ rx1 mx1 in
      let y1 := max_ ry1 my1 in
      let x2 := Rasterize.min_ rx2 mx2 in
      let y2 := Rasterize.min_ ry2 my2 in
      if decide ((x2 ≤ x1)%Qc \/ (y2 ≤ y1)%Qc) then None (* no overlap *)
      else Some (x1, y1, x2, y2)
  | _, _ => None
  end.

End Clip.

(** ** [raster.misc.Mask] *)

Module Mask.

(** [self.fillvalue] *)
Definition fillvalue (value : Z) : Z := if value =? 0 then 1 else 0.

Section process.
(** [utils.get_index(values, no_data_value)]: the index of the cells with
    data; the function is not part of the sources at hand. *)
Variable get_index : list Z -> option Z -> list bool.

(** For an integer constant, for which the dtype is ['uint8']. *)
Definition process (data : option raster_data) (value : Z)
  : option raster_data :=
  match data with
  | Some (Vals values no_data_value) =>
      let index := get_index values no_data_value in
      let fillvalue := if value =? 0 then 1 else 0 in
      let dtype := np.uint8 in
      let values := np.full (length values) fillvalue dtype in
      let values := np.putmask values index (np.cast dtype value) in
      Some (Vals values (Some fillvalue))
  | _ => data
  end.

End process.

End Mask.

(** ** [raster.misc.MaskBelow] *)

Module MaskBelow.

Definition process (data : option raster_data) (value : Z)
  : option raster_data :=
  match data with
  | Some (Vals values no_data_value) =>
      let values :=
        np.putmask values (np.lt values value) (stored_no_data no_data_value) in
      Some (Vals values no_data_value)
  | _ => data
  end.

End MaskBelow.

(** ** [raster.misc.Rasterize.process] *)

Module RasterizeProcess.

(** The first argument of [process]: the end of the period, [None], or the
    response of the geometry source, by the mode. *)
Inductive input `{GeometryEngine} : Type :=
| Time (t : Z)
| Nothing
| Geometries (data : geometry_data).

(** The response: [{"time": [data]}], [{"meta": [None]}] or a grid. *)
Inductive response `{GeometryEngine} : Type :=
| RTime (time : list input)
| RMeta (meta : list (option string))
| RVals (values : list Z) (no_data_value : option Z).

(** Conversion of a number to the dtype of the block: a boolean cell is 1
    for every number but 0. *)
Definition cast (d : Rasterize.raster_dtype) (z : Z) : Z :=
  match d with
  | Rasterize.Bool => if z =? 0 then 0 else 1
  | Rasterize.Int d => np.cast d z
  end.

(** [a.astype(dtype)] for the dtype of the block *)
Definition astype (d : Rasterize.raster_dtype) (a : list Z) : list Z :=
  map (cast d) a.

(** The cell that numpy stores for the no-data value in an array of the
    dtype: [bool(no_data_value)] in a boolean array ([None] is [False]), the
    converted number in an integer array, which has no cell for [None]. *)
Definition no_data_cell (d : Rasterize.raster_dtype) (no_data_value : option Z)
  : result Z :=
  match d, no_data_value with
  | Rasterize.Bool, _ => Ok (cast d (stored_no_data no_data_value))
  | Rasterize.Int _, Some z => Ok (cast d z)
  | Rasterize.Int _, None =>
      Raise (TypeError "int() argument must be a number, not 'NoneType'")
  end.

(** [np.full((1, height, width), no_data_value, dtype=dtype)] *)
Definition full (height width : Z) (no_data_value : option Z)
  (d : Rasterize.raster_dtype) : result (list Z) :=
  if (height <? 0) || (width <? 0) then
    Raise (ValueError "negative dimensions are not allowed")
  else
    cell ← no_data_cell d no_data_value;
    Ok (replicate (Z.to_nat (height * width)) cell).

Section process.
Context `{GeometryEngine}.

(** [utils.rasterize_geoseries(geoseries, values, bbox, projection, height,
    width)], the rasterization engine: it gives a grid and its no-data
    value. The values are [None] or a series. *)
Variable rasterize_geoseries :
  option pd.Series -> option pd.Series -> bbox -> string -> Z -> Z ->
  result (list Z * option Z).

(** [f["geometry"] if "geometry" in f else None] *)
Definition geoseries (f : pd.DataFrame) : option pd.Series :=
  match pd.columns f !! "geometry" with
  | Some col => Some (pd.MkSeries (pd.index f) col)
  | None => None
  end.

(** The value column to rasterize: [Some None] without column name,
    [Some (Some s)] for the column or the index of that name, and [None]
    (Python's [False]) when there is no such column. [index_name] is
    [f.index.name]. *)
Definition value_column (f : pd.DataFrame) (index_name : option string)
  (column_name : option string) : option (option pd.Series) :=
  match column_name with
  | None => Some None
  | Some name =>
      match pd.columns f !! name with
      | Some col => Some (Some (pd.MkSeries (pd.index f) col))
      | None =>
          if decide (index_name = Some name)
          then Some (Some (pd.MkSeries (pd.index f) (pd.index f)))
          else None
      end
  end.

Definition process (index_name : option string) (data : input)
  (process_kwargs : Rasterize.process_kwargs) : result response :=
  (* first handle the time and meta requests *)
  match process_kwargs, data with
  | Rasterize.KwTime, _ => Ok (RTime [data])
  | Rasterize.KwMeta, _ => Ok (RMeta [None])
  | Rasterize.KwVals column_name dtype no_data_value width height bbox,
    Geometries (Features f projection) =>
      (* get the value column to rasterize *)
      match value_column f index_name column_name with
      | None => (* there is no data to rasterize *)
          values ← full height width no_data_value dtype;
          Ok (RVals values no_data_value)
      | Some values =>
          if (pd.len f =? 0)%nat then
            values ← full height width no_data_value dtype;
            Ok (RVals values no_data_value)
          else
            '(values, result_no_data) ←
              rasterize_geoseries (geoseries f) values bbox projection
                height width;
            (* cast to the expected dtype if necessary *)
            let cast_values := astype dtype values in
            (* replace the nodata value if necessary *)
            cast_values ←
              (if bool_decide (result_no_data ≠ no_data_value) then
                 cell ← no_data_cell dtype no_data_value;
                 Ok (np.putmask cast_values (np.eq values result_no_data) cell)
               else Ok cast_values);
            Ok (RVals cast_values no_data_value)
      end
  | Rasterize.KwVals _ _ _ _ _ _, Geometries _ => Raise (KeyError "features")
  | Rasterize.KwVals _ _ _ _ _ _, _ =>
      Raise (TypeError "object is not subscriptable")
  end.

End process.

End RasterizeProcess.

(** ** [geometry.base.GetSeriesBlock] *)

Module GetSeriesBlock.

(** The constructor, given the property [source.columns], which a block
    may answer with an error. *)
Definition __init__ (source_columns : result (gset string))
  (source name : pyarg) : result pyarg :=
  if negb (isinstance source GeometryBlock)
  then Raise (TypeError "object is not allowed")
  else
    match name with
    | PStr n =>
        columns ← source_columns;
        if decide (n ∉ columns)
        then Raise (KeyError "Column is not available")
        else Ok (Block__init__ "GetSeriesBlock" SeriesBlock [source; name])
    | _ => Raise (TypeError "object is not allowed")
    end.

Section process.
Context `{GeometryEngine}.

(** [pd.Series([])] *)
Definition empty_series : pd.Series := pd.MkSeries [] [].

Definition process (data : geometry_data) (name : string) : pd.Series :=
  match data with
  | Features features _ =>
      match pd.columns features !! name with
      | Some col => pd.MkSeries (pd.index features) col
      | None => empty_series
      end
  | _ => empty_series
  end.

End process.

End GetSeriesBlock.

(** ** [geometry.base.GeometryBlock] *)

Module GeometryBlock_.

(** [self[name]], given the property [self.columns] *)
Definition __getitem__ (columns : result (gset string)) (self name : pyarg)
  : result pyarg :=
  GetSeriesBlock.__init__ columns self name.

(** [self.set( *args)] *)
Definition set (self : pyarg) (args : list pyarg) : result pyarg :=
  match args with
  | column :: value :: args => SetSeriesBlock.__init__ self column value args
  | _ => Raise (TypeError "missing required positional arguments")
  end.

End GeometryBlock_.

(** ** [geometry.base.BaseSingle] *)

Module BaseSingle.

Definition __init__ (cls : string) (source : pyarg) (args : list pyarg)
  : result pyarg :=
  if negb (isinstance source GeometryBlock)
  then Raise (TypeError "object is not allowed")
  else Ok (Block__init__ cls GeometryBlock (source :: args)).

(** [self.columns], given the columns of the source: by default, columns
    is not changed *)
Definition columns (source_columns : gset string) : gset string :=
  source_columns.

End BaseSingle.

(** ** The constructors of [Difference] and [Intersection] *)

Module SetOperations.

(** [Difference.__init__] *)
Definition Difference (source other : pyarg) : result pyarg :=
  if negb (isinstance other GeometryBlock)
  then Raise (TypeError "object is not allowed")
  else BaseSingle.__init__ "Difference" source [other].

(** [Intersection.__init__]; [NotImplementedError] is a [RuntimeError]. *)
Definition Intersection (source other : pyarg) : result pyarg :=
  if isinstance other GeometryBlock then
    Raise (RuntimeError
      "Cannot compare geometries with another geometry datasource")
  else
    match other with
    | PNone => BaseSingle.__init__ "Intersection" source [other]
    | _ => Raise (RuntimeError
             "Cannot compare geometries with a constant geometry")
    end.

End SetOperations.

(** ** [geometry.set_operations.Intersection] *)

Module Intersection.

(** The first component of the pairs that the block returns. *)
Inductive source `{GeometryEngine} : Type :=
| Source                          (* [self.source] *)
| Literal (g : geometry).         (* [request["geometry"]] *)

Section block.
Context `{GeometryEngine}.

(** [a.intersection(b)] of the geometry engine *)
Variable intersection : geometry -> geometry -> geometry.

Definition get_sources_and_requests (request : geometry_request)
  : list (source * option geometry_request) :=
  [(Source, Some request); (Literal (req_geometry request), None)].

(** [features.geometry.intersection(geometry)] on one cell; a missing
    geometry stays missing. *)
Definition intersection_cell (g : geometry) (c : option cell) : option cell :=
  match c with
  | Some (Geom a) => Some (Geom (intersection a g))
  | _ => None
  end.

(** A table without geometry column has no [features.geometry]; geopandas
    reports this with an AttributeError, which is rendered here by the
    KeyError of the missing column. A response with neither features nor
    extent falls through both branches and gives [None]. *)
Definition process (data : geometry_data) (g : geometry)
  : result (option geometry_data) :=
  match data with
  | Features features projection =>
      series ← pd.getitem features "geometry";
      let features :=
        pd.set_geometry features
          (pd.MkSeries (pd.s_index series)
             (map (intersection_cell g) (pd.s_values series))) in
      Ok (Some (Features features projection))
  | Extent (Some (ax1, ay1, ax2, ay2)) projection =>
      (* intersect the bboxes *)
      let '(bx1, by1, bx2, by2) := bounds g in
      let bbox :=
        (max_ ax1 bx1, max_ ay1 by1,
         Rasterize.min_ ax2 bx2, Rasterize.min_ ay2 by2) in
      Ok (Some (Extent (Some bbox) projection))
  | Extent None _ => Raise (TypeError "'NoneType' object is not subscriptable")
  | EmptyMarker _ => Ok None
  end.

End block.

End Intersection.

(** ** [geometry.sources.GeometryFileSource.get_sources_and_requests] *)

Module FileSourcePlan.

(** [c.lower()] on an ASCII letter *)
Definition lower_ascii (c : Ascii.ascii) : Ascii.ascii :=
  let n := Ascii.nat_of_ascii c in
  if (65 <=? n)%nat && (n <=? 90)%nat then Ascii.ascii_of_nat (n + 32) else c.

(** [s.lower()] on ASCII text *)
Fixpoint lower (s : string) : string :=
  match s with
  | EmptyString => EmptyString
  | String c s' => String (lower_ascii c) (lower s')
  end.

(** ["__" in field] *)
Definition is_lookup (field : string) : bool :=
  match String.index 0 "__" field with
  | Some _ => true
  | None => false
  end.

(** The block: [self.url], [self.layer], [self.id_field]. *)
Record t : Type := Build { url : string; layer : option string; id_field : string }.

(** [self.columns]; Python's [NotImplementedError] is a [RuntimeError]. *)
Definition columns (self : t) : result (gset string) :=
  Raise (RuntimeError "NotImplementedError").

(** The incoming request, in which the keys ["mode"] and ["filters"] may be
    absent. *)
Record request `{GeometryEngine} : Type := Request {
  mode : option string;
  filters : option (list (string * cell));
  geometry_ : geometry;
  projection : string;
  min_size : option Qc;
  limit : option Z;
  start : option Z;
  stop : option Z
}.

Arguments Request {H} _ _ _ _ _ _ _ _.

Section plan.
Context `{GeometryEngine}.

(** The pairs [[(self.url, None), (request, None)]], both without
    request: the url and the request that [process] receives. *)
Definition get_sources_and_requests (self : t) (request : request)
  : result (string * GeometryFileSource.file_request) :=
  (* check the filters: this block does not support lookups *)
  let filters := default [] (filters request) in
  if existsb (fun fv => is_lookup fv.1) filters then
    Raise (ValueError "Filter is not supported")
  else
    let mode := lower (default "intersects" (mode request)) in
    if negb (bool_decide (mode ∈ ["extent"; "intersects"; "centroid"])) then
      Raise (ValueError "Unknown mode")
    else
      (* just pass on the args and request here *)
      Ok (url self,
          GeometryFileSource.FileRequest
            (GeometryRequest mode (geometry_ request) (projection request)
               (min_size request) (limit request) (start request)
               (stop request) filters)
            (layer self) (id_field self)).

End plan.

End FileSourcePlan.

(** ** Notions used in the statements about extents *)

(** The point [(x, y)] lies in the box, its border included. *)
Definition inside (b : bbox) (x y : Qc) : Prop :=
  let '(x1, y1, x2, y2) := b in
  (x1 ≤ x)%Qc /\ (x ≤ x2)%Qc /\ (y1 ≤ y)%Qc /\ (y ≤ y2)%Qc.

(** The point [(x, y)] lies in the box and not on its border. *)
Definition interior (b : bbox) (x y : Qc) : Prop :=
  let '(x1, y1, x2, y2) := b in
  (x1 < x)%Qc /\ (x < x2)%Qc /\ (y1 < y)%Qc /\ (y < y2)%Qc.

(** ** More concrete inputs *)

Module Runs.

#[local] Existing Instance Rectangles.engine.

(** The first two parcels of the file, as [GeometryFileSource.process]
    returns them for a limit of 2. *)
Definition first_two : pd.DataFrame :=
  pd.MkFrame [Some (Num 10); Some (Num 11)]
    (<["geometry" := [Some (Geom (0, 0, 1, 1)); Some (Geom (1, 1, 2, 2))]]> ∅).

(** A single point as a raster window of 3 by 2 cells. *)
Definition point_request : Rasterize.request :=
  Rasterize.Request "vals"
    (Parcels.q 1, Parcels.q 1, Parcels.q 1, Parcels.q 1)
    2 3 "EPSG:28992" None None.

(** An 'extent' request for the window of [Parcels.window]. *)
Definition extent_window : GeometryFileSource.file_request :=
  GeometryFileSource.FileRequest
    (GeometryRequest "extent" (0, 0, 10, 10) "EPSG:28992"
       None None None None [])
    None "id".

(** The overlap of two rectangles (the hull of nothing when there is none),
    for the intersection of the engine. *)
Definition common (a b : Rectangles.rect) : Rectangles.rect :=
  let '(ax1, ay1, ax2, ay2) := a in
  let '(bx1, by1, bx2, by2) := b in
  (Z.max ax1 bx1, Z.max ay1 by1, Z.min ax2 bx2, Z.min ay2 by2).

End Runs.

(** * Properties *)

(** ** Masked assignment *)

Lemma putmask_length a mask x : length (np.putmask a mask x) = length a.
Proof.
  revert mask; induction a as [|v a IH]; intros [|b mask]; simpl; auto.
Qed.

Lemma putmask_lookup a mask x i :
  np.putmask a mask x !! i =
  match mask !! i with
  | Some true => (fun _ => x) <$> a !! i
  | _ => a !! i
  end.
Proof.
  revert mask i; induction a as [|v a IH]; intros [|b mask] [|i]; simpl;
    try reflexivity; try apply IH.
  - by destruct b.
  - by destruct (mask !! i) as [[]|].
  - by destruct b.
Qed.

Lemma eq_lookup a x i :
  np.eq a x !! i = (fun v => bool_decide (Some v = x)) <$> a !! i.
Proof. unfold np.eq. apply list_lookup_fmap. Qed.

Lemma cast_uint8_small z : 0 <= z < 256 -> np.cast np.uint8 z = z.
Proof.
  intros Hz. unfold np.cast. simpl. change (2 ^ 8) with 256.
  apply Z.mod_small. lia.
Qed.

(** ** [Step] *)


(** ** [Classify] *)

(** C1. With the bin edges [0, 10, 20] and [right = False], the values
    [-5, 0, 5, 10, 25] get the bucket indices [0, 1, 1, 2, 3]. For every
    grid, a cell that equals the no-data value gets the fill value of the
    block, 255, and every other cell gets the number of edges that are at
    most the cell, an index between 0 and 3. *)
Theorem Classify_boundary_scenario :
  (exists self,
     Classify.__init__ RasterBlock (Classify.Numbers [0; 10; 20]) false = Ok self
     /\ Classify.bins self = [0; 10; 20] /\ Classify.right self = false
     /\ Classify.fillvalue self = 255)
  /\ Classify.process (Some (Vals [-5; 0; 5; 10; 25] (Some (-9999)))) [0; 10; 20] false
    = Ok (Some (Vals [0; 1; 1; 2; 3] (Some 255)))
  /\ Classify.process
       (Some (Vals [-5; -9999; 0; 5; 10; -9999; 25] (Some (-9999)))) [0; 10; 20] false
    = Ok (Some (Vals [0; 255; 1; 1; 2; 255; 3] (Some 255)))
  /\ forall values nd, exists out,
      Classify.process (Some (Vals values nd)) [0; 10; 20] false
        = Ok (Some (Vals out (Some 255)))
      /\ length out = length values
      /\ forall i v, values !! i = Some v ->
          (Some v = nd -> out !! i = Some 255)
          /\ (Some v <> nd ->
              exists k, out !! i = Some k /\ 0 <= k <= 3
                /\ k = Z.of_nat (length (filter (fun b => b <= v) [0; 10; 20]))).
Proof.
  split; [eexists; repeat split; reflexivity|].
  split; [reflexivity|]. split; [reflexivity|].
  intros values nd. eexists. split; [reflexivity|]. split.
  - rewrite putmask_length. unfold np.astype, np.searchsorted.
    by rewrite !length_map.
  - intros i v Hi.
    rewrite putmask_lookup, eq_lookup, Hi. simpl.
    unfold np.astype, np.searchsorted. rewrite !list_lookup_fmap, Hi. simpl.
    pose proof (length_filter (fun b => b <= v) [0; 10; 20]) as Hle.
    simpl in Hle.
    split; intros Hnd.
    + by rewrite bool_decide_eq_true_2.
    + rewrite bool_decide_eq_false_2 by done.
      eexists. split; [|split; [|reflexivity]].
      * f_equal. apply cast_uint8_small. lia.
      * lia.
Qed.

(** The bins that the constructor accepts. *)

Lemma diff_all_positive bins :
  np.all (np.gt (np.diff bins) 0) = true <-> Sorted Z.lt bins.
Proof.
  induction bins as [|x [|y bins] IH]; simpl.
  - split; [constructor|done].
  - split; [repeat constructor|done].
  - unfold np.all, np.gt in *. simpl in *. rewrite andb_true_iff, IH.
    unfold id. rewrite Z.ltb_lt. split.
    + intros [Hxy Hs]. constructor; [done|]. constructor. lia.
    + intros Hs. apply Sorted_inv in Hs as [Hs Hhd].
      apply HdRel_inv in Hhd. split; [lia|done].
Qed.

Lemma diff_all_negative bins :
  np.all (np.lt (np.diff bins) 0) = true <-> Sorted Z.gt bins.
Proof.
  induction bins as [|x [|y bins] IH]; simpl.
  - split; [constructor|done].
  - split; [repeat constructor|done].
  - unfold np.all, np.lt in *. simpl in *. rewrite andb_true_iff, IH.
    unfold id. rewrite Z.ltb_lt. split.
    + intros [Hxy Hs]. constructor; [done|]. constructor. lia.
    + intros Hs. apply Sorted_inv in Hs as [Hs Hhd].
      apply HdRel_inv in Hhd. split; [lia|done].
Qed.

Lemma ascending_and_descending bins :
  Sorted Z.lt bins -> Sorted Z.gt bins -> (length bins <= 1)%nat.
Proof.
  destruct bins as [|x [|y bins]]; simpl; intros Hlt Hgt; [lia|lia|].
  apply Sorted_inv in Hlt as [_ Hlt]. apply HdRel_inv in Hlt.
  apply Sorted_inv in Hgt as [_ Hgt]. apply HdRel_inv in Hgt. lia.
Qed.

Lemma short_descending bins : (length bins <= 1)%nat -> Sorted Z.gt bins.
Proof.
  destruct bins as [|x [|y bins]]; simpl; intros; [repeat constructor..|lia].
Qed.

(** [Classify(store, bins, right)] is built exactly for the strictly
    ascending lists of at least two edges. *)
Lemma Classify_init_accepts bins right :
  Classify.__init__ RasterBlock (Classify.Numbers bins) right
    = Ok (Classify.Build RasterBlock bins right)
  <-> Sorted Z.lt bins /\ (2 <= length bins)%nat.
Proof.
  unfold Classify.__init__.
  destruct (np.all (np.gt (np.diff bins) 0)) eqn:Hasc;
    destruct (np.all (np.lt (np.diff bins) 0)) eqn:Hdesc; simpl.
  - apply diff_all_positive in Hasc. apply diff_all_negative in Hdesc.
    pose proof (ascending_and_descending bins Hasc Hdesc).
    split; [done|]. intros [_ ?]. lia.
  - apply diff_all_positive in Hasc. split; [|done]. intros _. split; [done|].
    destruct (decide (2 <= length bins)%nat); [done|].
    rewrite (proj2 (diff_all_negative bins)) in Hdesc; [done|].
    apply short_descending. lia.
  - split; [done|]. intros [Hs _]. apply diff_all_positive in Hs. congruence.
  - split; [done|]. intros [Hs _]. apply diff_all_positive in Hs. congruence.
Qed.

(** Every list that is not strictly ascending is refused by the
    constructor, with the message of the monotonicity test. *)
Lemma Classify_init_rejects bins right :
  ~ Sorted Z.lt bins ->
  Classify.__init__ RasterBlock (Classify.Numbers bins) right
    = Raise (TypeError "'bins' should be monotonic").
Proof.
  intros Hs. unfold Classify.__init__.
  destruct (np.all (np.gt (np.diff bins) 0)) eqn:Hasc; [|done].
  apply diff_all_positive in Hasc. done.
Qed.

(** C5. The constructor refuses the strictly descending edges [20, 10, 0]
    and the single edge [5] as not monotonic, although [np.digitize], which
    [process] calls, classifies with descending edges. *)
Theorem Classify_init_descending_bins :
  Sorted Z.gt [20; 10; 0]
  /\ Classify.__init__ RasterBlock (Classify.Numbers [20; 10; 0]) false
     = Raise (TypeError "'bins' should be monotonic")
  /\ Classify.__init__ RasterBlock (Classify.Numbers [5]) false
     = Raise (TypeError "'bins' should be monotonic")
  /\ Classify.process (Some (Vals [25; 10; 5; 0; -5] None)) [20; 10; 0] false
     = Ok (Some (Vals [0; 1; 2; 2; 3] (Some 255))).
Proof.
  split; [repeat constructor|]. repeat split; reflexivity.
Qed.

(** ** [Reclassify] *)

(** *** Sorting by [argsort] *)

Section argsort_facts.
Variable key : nat -> Z.

Lemma insert_by_perm i l : np.insert_by key i l ≡ₚ i :: l.
Proof.
  induction l as [|j l IH]; simpl; [done|].
  destruct (key j <=? key i); [|done].
  rewrite IH. apply Permutation_swap.
Qed.

Lemma insert_by_sorted i l :
  StronglySorted (fun i j => key i <= key j) l ->
  StronglySorted (fun i j => key i <= key j) (np.insert_by key i l).
Proof.
  induction 1 as [|j l Hl IH Hj]; simpl.
  - repeat constructor.
  - destruct (Z.leb_spec (key j) (key i)).
    + constructor; [done|].
      rewrite insert_by_perm. constructor; [done|done].
    + constructor; [by constructor|].
      constructor; [lia|].
      eapply Forall_impl; [exact Hj|]. simpl. intros; lia.
Qed.

Lemma foldr_insert_by_perm l : foldr (np.insert_by key) [] l ≡ₚ l.
Proof.
  induction l as [|i l IH]; simpl; [done|]. by rewrite insert_by_perm, IH.
Qed.

Lemma foldr_insert_by_sorted l :
  StronglySorted (fun i j => key i <= key j) (foldr (np.insert_by key) [] l).
Proof.
  induction l as [|i l IH]; simpl; [constructor|]. by apply insert_by_sorted.
Qed.

End argsort_facts.

Lemma argsort_perm a : np.argsort a ≡ₚ seq 0 (length a).
Proof. apply foldr_insert_by_perm. Qed.

Lemma argsort_sorted a :
  StronglySorted (fun i j => a !!! i <= a !!! j) (np.argsort a).
Proof. apply (foldr_insert_by_sorted (fun i => a !!! i)). Qed.

Lemma argsort_in_range a : Forall (fun i => (i < length a)%nat) (np.argsort a).
Proof.
  rewrite argsort_perm. apply Forall_seq. intros; lia.
Qed.

Lemma take_total a inds :
  Forall (fun i => (i < length a)%nat) inds ->
  np.take a inds = Ok (map (fun i => a !!! i) inds).
Proof.
  induction 1 as [|i inds Hi _ IH]; simpl; [done|].
  destruct (lookup_lt_is_Some_2 a i Hi) as [v Hv].
  rewrite Hv, IH. simpl. by rewrite (list_lookup_total_correct _ _ _ Hv).
Qed.

Lemma map_lookup_total_seq (a : list Z) :
  map (fun i => a !!! i) (seq 0 (length a)) = a.
Proof.
  apply list_eq. intros i. rewrite list_lookup_fmap.
  destruct (decide (i < length a)%nat) as [Hi|Hi].
  - rewrite lookup_seq_lt by done. simpl.
    destruct (lookup_lt_is_Some_2 a i Hi) as [v Hv].
    by rewrite Hv, (list_lookup_total_correct _ _ _ Hv).
  - rewrite lookup_seq_ge by lia. simpl. symmetry. apply lookup_ge_None. lia.
Qed.

(** *** Lookup in the sorted arrays *)

Lemma StronglySorted_le_lt (l : list Z) :
  NoDup l -> StronglySorted Z.le l -> StronglySorted Z.lt l.
Proof.
  induction 2 as [|x l Hl IH Hx]; [constructor|].
  apply NoDup_cons in H as [Hnotin Hnd].
  constructor; [by apply IH|].
  apply Forall_forall. intros y Hy.
  rewrite Forall_forall in Hx. specialize (Hx y Hy).
  assert (x <> y) by (intros ->; done). lia.
Qed.

Lemma filter_lt_above (l : list Z) v :
  Forall (Z.lt v) l -> filter (fun x => x < v) l = [].
Proof.
  induction 1 as [|x l Hx _ IH]; [done|].
  rewrite filter_cons_False by lia. exact IH.
Qed.

(** In a strictly ascending array the insertion point of an entry is its
    position. *)
Lemma searchsorted_left_index (l : list Z) k v :
  StronglySorted Z.lt l -> l !! k = Some v ->
  np.searchsorted1 l np.left_side v = k.
Proof.
  unfold np.searchsorted1.
  intros Hl. revert k. induction Hl as [|x l Hl IH Hx]; intros k Hk; [done|].
  destruct k as [|k]; simpl in Hk.
  - injection Hk as ->. rewrite filter_cons_False by lia.
    by rewrite filter_lt_above.
  - assert (x < v).
    { rewrite Forall_forall in Hx. apply Hx. by eapply list_elem_of_lookup_2. }
    rewrite filter_cons_True by done. simpl. f_equal. by apply IH.
Qed.

Section sorted_lookup.
Variables source target : list Z.
Hypothesis Hlen : length source = length target.
Hypothesis Hnodup : NoDup source.

Lemma sorted_source_perm :
  map (fun i => source !!! i) (np.argsort source) ≡ₚ source.
Proof.
  change (((fun i => source !!! i) <$> np.argsort source) ≡ₚ source).
  rewrite argsort_perm.
  change (map (fun i => source !!! i) (seq 0 (length source)) ≡ₚ source).
  by rewrite map_lookup_total_seq.
Qed.

Lemma sorted_source_strict :
  StronglySorted Z.lt (map (fun i => source !!! i) (np.argsort source)).
Proof.
  apply StronglySorted_le_lt.
  - rewrite sorted_source_perm. exact Hnodup.
  - pose proof (argsort_sorted source) as Hs.
    induction Hs as [|i l Hl IH Hi]; simpl; constructor; [done|].
    clear -Hi. induction Hi; simpl; constructor; done.
Qed.

Lemma sorted_lookup_pair k v :
  map (fun i => source !!! i) (np.argsort source) !! k = Some v ->
  exists t, map (fun i => target !!! i) (np.argsort source) !! k = Some t
    /\ (v, t) ∈ zip source target.
Proof.
  intros Hk.
  change (((fun i => source !!! i) <$> np.argsort source) !! k = Some v) in Hk.
  rewrite list_lookup_fmap in Hk.
  destruct (np.argsort source !! k) as [j|] eqn:Hj; [|done].
  simpl in Hk. injection Hk as <-.
  exists (target !!! j). split.
  - change (((fun i => target !!! i) <$> np.argsort source) !! k
            = Some (target !!! j)).
    by rewrite list_lookup_fmap, Hj.
  - assert (j < length source)%nat as Hlt.
    { pose proof (argsort_in_range source) as Hr. rewrite Forall_forall in Hr.
      apply Hr. by eapply list_elem_of_lookup_2. }
    destruct (lookup_lt_is_Some_2 source j Hlt) as [x Hx].
    destruct (lookup_lt_is_Some_2 target j ltac:(lia)) as [y Hy].
    rewrite (list_lookup_total_correct _ _ _ Hx), (list_lookup_total_correct _ _ _ Hy).
    apply list_elem_of_lookup. exists j.
    rewrite (lookup_zip_with pair source target j). rewrite Hx. simpl.
    by rewrite Hy.
Qed.

End sorted_lookup.

(** *** Masked gather and scatter *)

Lemma place_compress (p : Z -> bool) (g h : Z -> Z) (values : list Z) :
  np.place (map h values) (map p values)
    (map g (np.compress values (map p values)))
  = map (fun v => if p v then g v else h v) values.
Proof.
  induction values as [|v values IH]; simpl; [done|].
  destruct (p v); simpl; by rewrite IH.
Qed.

Lemma compress_Forall (p : Z -> bool) (values : list Z) :
  Forall (fun v => p v = true) (np.compress values (map p values)).
Proof.
  induction values as [|v values IH]; simpl; [constructor|].
  destruct (p v) eqn:E; [constructor|]; done.
Qed.

Lemma contains_elem_of a x : np.contains a x = true <-> x ∈ a.
Proof.
  unfold np.contains. rewrite existsb_exists. split.
  - intros (v & Hv & Heq). apply Z.eqb_eq in Heq as <-. by apply list_elem_of_In.
  - intros Hx. exists x. split; [by apply list_elem_of_In|]. apply Z.eqb_refl.
Qed.

Lemma full_map n fill d (values : list Z) :
  n = length values ->
  np.full n fill d = map (fun _ => np.cast d fill) values.
Proof.
  intros ->. unfold np.full. induction values; simpl; [done|]. by f_equal.
Qed.

(** *** The mapping applied cell by cell *)

Lemma assoc_Some m v t : NoDup m.*1 -> (v, t) ∈ m -> assoc m v = Some t.
Proof.
  induction m as [|[k t'] m IH]; simpl; intros Hnd Hin.
  - by apply elem_of_nil in Hin.
  - apply NoDup_cons in Hnd as [Hk Hnd].
    apply elem_of_cons in Hin as [Heq|Hin].
    + injection Heq as -> ->. by rewrite decide_True.
    + rewrite decide_False; [by apply IH|].
      intros ->. apply Hk. apply list_elem_of_fmap. by exists (v, t).
Qed.

Lemma assoc_None m v : v ∉ m.*1 -> assoc m v = None.
Proof.
  induction m as [|[k t'] m IH]; simpl; intros Hin; [done|].
  apply not_elem_of_cons in Hin as [Hne Hin].
  rewrite decide_False by done. by apply IH.
Qed.

Lemma mapping_NoDup kw nd :
  NoDup (Reclassify.kw_data kw).*1 -> NoDup (mapping kw nd).*1.
Proof.
  intros Hnd. unfold mapping. destruct nd as [n|]; [|done].
  destruct (np.contains _ n) eqn:E; [done|].
  rewrite fmap_app. simpl. apply NoDup_app. split; [done|]. split.
  - intros x Hx Hx'. apply list_elem_of_singleton in Hx' as ->.
    apply contains_elem_of in Hx. congruence.
  - apply NoDup_singleton.
Qed.

Lemma zip_fst_snd {A B} (m : list (A * B)) : zip m.*1 m.*2 = m.
Proof. induction m as [|[??] m IH]; simpl; [done|]. by f_equal. Qed.

Lemma unzip_data_nonempty data :
  data <> [] -> Reclassify.unzip_data data = Ok (data.*1, data.*2).
Proof. by destruct data. Qed.

(** [Reclassify.process] with pairs of distinct "from" values maps the
    grid cell by cell: a cell with a pair gets the target of the pair, the
    no-data value of the store gets the fill value, and any other cell is
    kept, or replaced by the fill value when [select] is set. *)
Lemma Reclassify_process_spec values nd kw :
  Reclassify.kw_data kw <> [] ->
  NoDup (Reclassify.kw_data kw).*1 ->
  Reclassify.process (Some (Vals values nd)) kw
  = Ok (Some (Vals (map (reclassify_cell kw nd) values)
                   (Some (Reclassify.kw_fillvalue kw)))).
Proof.
  intros Hne Hnd. unfold Reclassify.process.
  rewrite (unzip_data_nonempty _ Hne). cbn [mbind result_bind].
  assert (exists m, m = mapping kw nd /\
    match nd with
    | Some n => if negb (np.contains (Reclassify.kw_data kw).*1 n)
        then (np.append (Reclassify.kw_data kw).*1 n,
              np.append (Reclassify.kw_data kw).*2 (Reclassify.kw_fillvalue kw))
        else ((Reclassify.kw_data kw).*1, (Reclassify.kw_data kw).*2)
    | None => ((Reclassify.kw_data kw).*1, (Reclassify.kw_data kw).*2)
    end = (m.*1, m.*2)) as (m & Hm & ->).
  { eexists. split; [reflexivity|]. unfold mapping, np.append.
    destruct nd as [n|]; [|done].
    destruct (np.contains _ n); simpl; [done|]. by rewrite !fmap_app. }
  pose proof (mapping_NoDup kw nd Hnd) as Hnd'. rewrite <- Hm in Hnd'.
  assert (Hlen : length m.*1 = length m.*2) by (by rewrite !length_fmap).
  rewrite !take_total
    by (try rewrite <- Hlen; apply argsort_in_range).
  cbn [mbind result_bind].
  set (ss := map (fun i => m.*1 !!! i) (np.argsort m.*1)).
  set (ts := map (fun i => m.*2 !!! i) (np.argsort m.*1)).
  assert (Hidx : forall v, np.contains ss v = true ->
            exists t, ts !! np.searchsorted1 ss np.left_side v = Some t
                   /\ assoc m v = Some t).
  { intros v Hv. apply contains_elem_of in Hv.
    apply list_elem_of_lookup in Hv as [k Hk].
    rewrite (searchsorted_left_index ss k v); [|by apply sorted_source_strict|done].
    destruct (sorted_lookup_pair m.*1 m.*2 Hlen k v Hk) as (t & Ht & Hin).
    exists t. split; [done|]. apply assoc_Some; [done|].
    by rewrite zip_fst_snd in Hin. }
  unfold np.in1d, np.searchsorted. rewrite take_total.
  2:{ rewrite Forall_fmap. eapply Forall_impl; [apply compress_Forall|].
      simpl. intros v Hv. destruct (Hidx v Hv) as (t & Ht & _).
      by eapply lookup_lt_Some. }
  cbn [mbind result_bind]. do 3 f_equal.
  unfold np.astype. rewrite !map_map.
  assert (Hbase : exists h,
    (if Reclassify.kw_select kw
     then np.full (length values) (Reclassify.kw_fillvalue kw) (Reclassify.kw_dtype kw)
     else map (np.cast (Reclassify.kw_dtype kw)) values) = map h values
    /\ forall v, h v = if Reclassify.kw_select kw
        then np.cast (Reclassify.kw_dtype kw) (Reclassify.kw_fillvalue kw)
        else np.cast (Reclassify.kw_dtype kw) v).
  { destruct (Reclassify.kw_select kw).
    - eexists (fun _ => _). split; [by apply full_map|done].
    - eexists. split; [reflexivity|done]. }
  destruct Hbase as (h & -> & Hh).
  rewrite place_compress. apply map_ext. intros v.
  unfold reclassify_cell. rewrite <- Hm.
  destruct (np.contains ss v) eqn:Hc.
  - destruct (Hidx v Hc) as (t & Ht & ->).
    by rewrite (list_lookup_total_correct _ _ _ Ht).
  - rewrite assoc_None, Hh; [done|].
    intros Hin. rewrite <- (sorted_source_perm m.*1) in Hin.
    apply contains_elem_of in Hin. fold ss in Hin. congruence.
Qed.

(** The constructor accepts the non-empty lists of pairs with distinct
    "from" values. *)

Lemma remove_dups_length_le (a : list Z) :
  (length (remove_dups a) <= length a)%nat.
Proof.
  induction a as [|x a IH]; simpl; [done|].
  destruct (decide_rel elem_of x a); simpl; lia.
Qed.

Lemma n_unique_NoDup (a : list Z) : np.n_unique a = length a <-> NoDup a.
Proof.
  unfold np.n_unique. induction a as [|x a IH]; simpl.
  - split; [constructor|done].
  - pose proof (remove_dups_length_le a) as Hle.
    destruct (decide_rel elem_of x a) as [Hin|Hin]; simpl.
    + split; [lia|]. intros Hnd. apply NoDup_cons in Hnd as [? _]. done.
    + split.
      * intros [= Hlen]. apply NoDup_cons. split; [done|]. by apply IH.
      * intros Hnd. apply NoDup_cons in Hnd as [_ Hnd]. f_equal. by apply IH.
Qed.

Lemma Reclassify_init_accepts data select self :
  Reclassify.__init__ data select = Ok self <->
  data <> [] /\ NoDup data.*1 /\ self = Reclassify.Build data select.
Proof.
  unfold Reclassify.__init__. destruct (decide (data = [])) as [->|Hne].
  { simpl. split; [done|]. by intros [? _]. }
  rewrite (unzip_data_nonempty _ Hne), zip_fst_snd.
  destruct (Nat.eqb_spec (np.n_unique data.*1) (length data.*1)) as [Heq|Hneq];
    cbn [negb].
  - apply n_unique_NoDup in Heq. split.
    + intros [= <-]. done.
    + by intros (_ & _ & ->).
  - split; [done|]. intros (_ & Hnd & _). by apply n_unique_NoDup in Hnd.
Qed.

(** The cell-by-cell mapping, for a block that the constructor built. *)
Lemma Reclassify_block_process data select self values nd :
  Reclassify.__init__ data select = Ok self ->
  Reclassify.process (Some (Vals values nd)) (Reclassify.get_process_kwargs self)
  = Ok (Some (Vals
          (map (reclassify_cell (Reclassify.get_process_kwargs self) nd) values)
          (Some (Reclassify.fillvalue self)))).
Proof.
  intros (Hne & Hnd & ->)%Reclassify_init_accepts.
  by apply Reclassify_process_spec.
Qed.

(** C2. With the pairs [[1, 10], [2, 20]] and a grid [1, 2, 3] none of
    whose cells is the no-data value of the store, [Reclassify.process]
    gives [10, 20, 3] when [select] is false and [10, 20, FILL] when it is
    true, [FILL] being the fill value of the block, which is also the
    no-data value of both results. *)
Theorem Reclassify_select_semantics (nd : option Z) :
  Forall (fun v => Some v <> nd) [1; 2; 3] ->
  exists keep discard FILL,
    Reclassify.__init__ [(1, 10); (2, 20)] false = Ok keep
    /\ Reclassify.__init__ [(1, 10); (2, 20)] true = Ok discard
    /\ Reclassify.fillvalue keep = FILL
    /\ Reclassify.fillvalue discard = FILL
    /\ Reclassify.process (Some (Vals [1; 2; 3] nd))
          (Reclassify.get_process_kwargs keep)
        = Ok (Some (Vals [10; 20; 3] (Some FILL)))
    /\ Reclassify.process (Some (Vals [1; 2; 3] nd))
          (Reclassify.get_process_kwargs discard)
        = Ok (Some (Vals [10; 20; FILL] (Some FILL))).
Proof.
  intros Hnd.
  assert (H3 : nd <> Some 3).
  { intros ->. rewrite !Forall_cons in Hnd. by destruct Hnd as (_ & _ & ? & _). }
  exists (Reclassify.Build [(1, 10); (2, 20)] false),
    (Reclassify.Build [(1, 10); (2, 20)] true), (np.iinfo_max np.int64).
  split; [reflexivity|]. split; [reflexivity|].
  split; [reflexivity|]. split; [reflexivity|].
  split;
    [rewrite (Reclassify_block_process [(1, 10); (2, 20)] false _ _ _ eq_refl)
    |rewrite (Reclassify_block_process [(1, 10); (2, 20)] true _ _ _ eq_refl)];
    do 3 f_equal; unfold reclassify_cell, mapping;
    (destruct nd as [n|]; [destruct (np.contains _ n)|]); simpl;
    repeat case_decide; try congruence; try reflexivity.
Qed.

Lemma Reclassify_select_semantics_witness :
  exists keep discard FILL,
    Reclassify.__init__ [(1, 10); (2, 20)] false = Ok keep
    /\ Reclassify.__init__ [(1, 10); (2, 20)] true = Ok discard
    /\ Reclassify.fillvalue keep = FILL
    /\ Reclassify.fillvalue discard = FILL
    /\ Reclassify.process (Some (Vals [1; 2; 3] (Some 0)))
          (Reclassify.get_process_kwargs keep)
        = Ok (Some (Vals [10; 20; 3] (Some FILL)))
    /\ Reclassify.process (Some (Vals [1; 2; 3] (Some 0)))
          (Reclassify.get_process_kwargs discard)
        = Ok (Some (Vals [10; 20; FILL] (Some FILL))).
Proof.
  apply (Reclassify_select_semantics (Some 0)).
  repeat constructor; discriminate.
Defined.

(** ** [Rasterize] *)

(** C8, as it is stated, fails: not every window without interior is
    refused. A window that is a single point passes the first test of the
    bbox, and the request to the source is built. *)
Lemma Rasterize_point_bbox_is_accepted :
  Rasterize.r_mode (Parcels.raster_request (Parcels.q 1, Parcels.q 1, Parcels.q 1, Parcels.q 1))
    = "vals"
  /\ degenerate_window (Parcels.q 1, Parcels.q 1, Parcels.q 1, Parcels.q 1)
  /\ Rasterize.get_sources_and_requests (H := Rectangles.engine) 1000
       Parcels.rasterize
       (Parcels.raster_request (Parcels.q 1, Parcels.q 1, Parcels.q 1, Parcels.q 1))
     = Ok [(Rasterize.TheSource,
            Some (GeometryRequest (H := Rectangles.engine) "intersects"
                    (1, 1, 1, 1) "EPSG:28992" None (Some 1000) None None []));
           (Rasterize.Literal
              (Rasterize.KwVals None Rasterize.Bool None 256 256
                 (Parcels.q 1, Parcels.q 1, Parcels.q 1, Parcels.q 1)), None)].
Proof.
  split; [reflexivity|]. split; [left; apply Qcle_refl|]. reflexivity.
Qed.

Section Rasterize_bbox.
Context `{GeometryEngine}.

(** C8 (amended). In 'vals' mode [get_sources_and_requests] raises the
    error of an invalid bbox, before it names any source, exactly when the
    bbox is neither a single point ([x1 = x2] and [y1 = y2]) nor a box with
    [x1 < x2] and [y1 < y2]; in particular it does for every reversed bbox
    ([x2 < x1] or [y2 < y1]). *)
Theorem Rasterize_invalid_bbox_raises geometry_limit self request x1 y1 x2 y2 :
  Rasterize.r_mode request = "vals" ->
  Rasterize.r_bbox request = (x1, y1, x2, y2) ->
  (Rasterize.get_sources_and_requests geometry_limit self request
     = Raise (ValueError "Invalid bbox")
   <-> ~ (x2 = x1 /\ y2 = y1) /\ ~ (x1 < x2 /\ y1 < y2)%Qc)
  /\ ((x2 < x1)%Qc \/ (y2 < y1)%Qc ->
      Rasterize.get_sources_and_requests geometry_limit self request
        = Raise (ValueError "Invalid bbox")).
Proof.
  intros Hmode Hbbox.
  assert (Hiff : Rasterize.get_sources_and_requests geometry_limit self request
     = Raise (ValueError "Invalid bbox")
   <-> ~ (x2 = x1 /\ y2 = y1) /\ ~ (x1 < x2 /\ y1 < y2)%Qc).
  { unfold Rasterize.get_sources_and_requests. rewrite Hmode, Hbbox.
    rewrite !(decide_False (P := "vals" = _)) by done.
    rewrite (decide_False (P := "vals" <> "vals")) by (intros Hne; by apply Hne).
    destruct (decide (x2 = x1 /\ y2 = y1)) as [Hpoint|Hpoint].
    { split; [done|]. intros [? _]. done. }
    destruct (decide (x1 < x2 /\ y1 < y2)%Qc) as [Hbox|Hbox].
    { split; [|intros [_ ?]; done].
      unfold Rasterize.truediv.
      destruct (Rasterize.r_width request =? 0); [done|].
      destruct (Rasterize.r_height request =? 0); done. }
    split; done. }
  split; [exact Hiff|].
  intros Hrev. apply Hiff. split.
  - intros [-> ->]. destruct Hrev as [Hlt|Hlt]; by apply Qclt_not_eq in Hlt.
  - intros [Hx Hy]. destruct Hrev as [Hlt|Hlt].
    + apply (Qclt_not_le _ _ Hlt). by apply Qclt_le_weak.
    + apply (Qclt_not_le _ _ Hlt). by apply Qclt_le_weak.
Qed.

End Rasterize_bbox.

Lemma Rasterize_invalid_bbox_raises_witness :
  Rasterize.get_sources_and_requests (H := Rectangles.engine) 1000
    Parcels.rasterize
    (Parcels.raster_request (Parcels.q 2, Parcels.q 0, Parcels.q 1, Parcels.q 1))
  = Raise (ValueError "Invalid bbox").
Proof.
  refine (proj2 (Rasterize_invalid_bbox_raises (H := Rectangles.engine) 1000
    Parcels.rasterize
    (Parcels.raster_request (Parcels.q 2, Parcels.q 0, Parcels.q 1, Parcels.q 1))
    (Parcels.q 2) (Parcels.q 0) (Parcels.q 1) (Parcels.q 1) eq_refl eq_refl) _).
  left. reflexivity.
Defined.

(** ** Series and tables *)

Section pandas_facts.
Context `{GeometryEngine}.


Lemma loc_present (s : pd.Series) (l : pd.label) (j : nat) :
  NoDup (pd.s_index s) -> pd.s_index s !! j = Some l ->
  pd.loc s l = mjoin (pd.s_values s !! j).
Proof.
  intros Hnd Hj. unfold pd.loc.
  destruct (list_find _ _) as [[i x]|] eqn:E.
  - apply list_find_Some in E as (Hi & -> & _).
    by rewrite (NoDup_lookup _ _ _ _ Hnd Hi Hj).
  - apply list_find_None in E. rewrite Forall_forall in E.
    exfalso. apply (E l); [by eapply list_elem_of_lookup_2|done].
Qed.

(** A series with distinct labels can be reindexed on any index, and the
    result holds at each position the value of the series at that label. *)
Lemma reindex_lookup (s : pd.Series) (idx : list pd.label) :
  NoDup (pd.s_index s) ->
  length (pd.s_values s) = length (pd.s_index s) ->
  exists s', pd.reindex s idx = Ok s'
    /\ pd.s_index s' = idx
    /\ length (pd.s_values s') = length idx
    /\ forall k l, idx !! k = Some l -> pd.s_values s' !! k = Some (pd.loc s l).
Proof.
  intros Hnd Hlen. unfold pd.reindex.
  destruct (decide (pd.s_index s = idx)) as [<-|Hne].
  - exists s. repeat split; [done|]. intros k l Hk.
    rewrite (loc_present s l k Hnd Hk).
    destruct (lookup_lt_is_Some_2 (pd.s_values s) k) as [c Hc].
    { rewrite Hlen. by eapply lookup_lt_Some. }
    by rewrite Hc.
  - rewrite decide_True by done. eexists. split; [reflexivity|]. simpl.
    split; [done|]. split; [by rewrite length_map|].
    intros k l Hk.
    change ((pd.loc s <$> idx) !! k = Some (pd.loc s l)).
    by rewrite list_lookup_fmap, Hk.
Qed.



End pandas_facts.

(** ** [Difference] *)

Section Difference_facts.
Context `{GeometryEngine}.


(** C9. When the extent of A for the request is [None] (and the request is
    not an 'extent' request), the block returns one pair, the marker of the
    empty result without request; no pair names B; and the evaluation gives
    an empty table of features in the projection of the request, whatever B
    would answer. *)
Theorem Difference_empty_extent_shortcut
    (source_get_data other_get_data : geometry_request -> result geometry_data)
    (request : geometry_request) (p : string) :
  req_mode request <> "extent" ->
  source_get_data (Difference.with_mode request "extent") = Ok (Extent None p) ->
  Difference.get_sources_and_requests source_get_data request
    = Ok [(Difference.Literal (EmptyMarker (req_projection request)), None)]
  /\ (forall pairs,
        Difference.get_sources_and_requests source_get_data request = Ok pairs ->
        Forall (fun pair => pair.1 <> Difference.Other) pairs)
  /\ Difference.get_data source_get_data other_get_data request
    = Ok (Features pd.empty_frame (req_projection request)).
Proof.
  intros Hmode Hextent.
  assert (Hplan : Difference.get_sources_and_requests source_get_data request
    = Ok [(Difference.Literal (EmptyMarker (req_projection request)), None)]).
  { unfold Difference.get_sources_and_requests.
    rewrite decide_False by done. by rewrite Hextent. }
  split; [exact Hplan|]. split.
  - intros pairs. rewrite Hplan. intros [= <-]. by repeat constructor.
  - unfold Difference.get_data. by rewrite Hplan.
Qed.

End Difference_facts.

(** ** [SetSeriesBlock] *)

Lemma every_other_interleave {A} (l : list (A * A)) :
  every_other (interleave l) = l.*1.
Proof. induction l as [|[x y] l IH]; simpl; [done|]. by f_equal. Qed.

Lemma every_other_drop_interleave {A} (l : list (A * A)) :
  every_other (drop 1 (interleave l)) = l.*2.
Proof.
  induction l as [|[x y] l IH]; simpl; [done|].
  destruct l as [|[x' y'] l]; simpl in *; [done|]. by f_equal.
Qed.

Lemma length_interleave {A} (l : list (A * A)) :
  length (interleave l) = (2 * length l)%nat.
Proof. induction l as [|[x y] l IH]; simpl; [done|]. rewrite IH. lia. Qed.

Lemma forallb_is_str (names : list string) :
  forallb is_str (PStr <$> names) = true.
Proof. induction names; simpl; done. Qed.

Lemma set_of_names_strings (names : list string) :
  SetSeriesBlock.set_of_names (PStr <$> names) = list_to_set names.
Proof.
  unfold SetSeriesBlock.set_of_names. f_equal.
  induction names as [|c names IH]; simpl; [done|]. by f_equal.
Qed.

Lemma named_fst (l : list (string * pyarg)) : (named <$> l).*1 = PStr <$> l.*1.
Proof. induction l as [|[??] l IH]; simpl; [done|]. by f_equal. Qed.

Lemma SetSeriesBlock_init_ok source column value args :
  isinstance source GeometryBlock = true ->
  (length (column :: value :: args) mod 2 =? 0)%nat = true ->
  forallb is_str (every_other (column :: value :: args)) = true ->
  SetSeriesBlock.__init__ source column value args
  = Ok (Blk "SetSeriesBlock" GeometryBlock (source :: column :: value :: args)).
Proof.
  intros Hs He Hf. unfold SetSeriesBlock.__init__. cbv zeta.
  by rewrite Hs, He, Hf.
Qed.

Section SetSeriesBlock_facts.
Context `{GeometryEngine}.

Lemma setitem_aligned (f : pd.DataFrame) (c : string) (v : pd.value) :
  alignable v ->
  pd.setitem f c v = Ok (pd.MkFrame (pd.index f) (assigned f (pd.columns f) (c, v))).
Proof.
  unfold assigned. destruct v as [x|s]; simpl.
  - intros _. do 3 f_equal. unfold pd.len.
    induction (pd.index f); simpl; [done|]. by f_equal.
  - intros [Hnd Hlen].
    destruct (reindex_lookup s (pd.index f) Hnd Hlen) as (s' & -> & _ & Hl & Hv).
    simpl. do 3 f_equal. apply list_eq. intros k.
    change (pd.s_values s' !! k = (pd.loc s <$> pd.index f) !! k).
    rewrite list_lookup_fmap.
    destruct (pd.index f !! k) as [l|] eqn:Hk; simpl.
    + by apply Hv.
    + apply lookup_ge_None. rewrite Hl. by apply lookup_ge_None.
Qed.

Lemma assign_aligned (cvs : list (string * pd.value)) (f : pd.DataFrame) :
  Forall alignable cvs.*2 ->
  SetSeriesBlock.assign f (name_pair <$> cvs)
  = Ok (pd.MkFrame (pd.index f) (foldl (assigned f) (pd.columns f) cvs)).
Proof.
  revert f. induction cvs as [|[c v] cvs IH]; intros f Hal; simpl.
  - by destruct f.
  - apply Forall_cons in Hal as [Hv Hal].
    rewrite (setitem_aligned f c v Hv). simpl. by rewrite IH.
Qed.

Lemma foldl_assigned_other (f : pd.DataFrame) (cvs : list (string * pd.value))
    (cols : gmap string (list (option cell))) (c : string) :
  c ∉ cvs.*1 -> foldl (assigned f) cols cvs !! c = cols !! c.
Proof.
  revert cols. induction cvs as [|[c' v] cvs IH]; intros cols Hc; simpl; [done|].
  apply not_elem_of_cons in Hc as [Hne Hc]. simpl in Hne.
  rewrite IH by done. unfold assigned. by rewrite lookup_insert_ne.
Qed.

Lemma foldl_assigned_last (f : pd.DataFrame) (pre post : list (string * pd.value))
    (cols : gmap string (list (option cell))) (c : string) (v : pd.value) :
  c ∉ post.*1 ->
  foldl (assigned f) cols (pre ++ (c, v) :: post)%list !! c
  = Some (map (value_at v) (pd.index f)).
Proof.
  intros Hc. rewrite foldl_app. simpl.
  rewrite foldl_assigned_other by done. unfold assigned. by rewrite lookup_insert_eq.
Qed.

(** C6. A [SetSeriesBlock] over a geometry block with the names
    [c1, ..., ck] declares the columns of its source and these names. Its
    [process] returns a response without rows as it is. On a table with
    rows (and series with distinct labels) it returns the table with the
    same index and projection in which every column that is not named is
    as before, and every named column holds, row by row, the constant or
    the value of the series at the label of the row (the last assignment
    to a name counts). *)
Theorem SetSeriesBlock_columns_and_process :
  (forall (source : pyarg) (F_columns : gset string)
          (cvs : list (string * pyarg)) (c1 : string) (v1 : pyarg),
     isinstance source GeometryBlock = true ->
     exists self,
       SetSeriesBlock.__init__ source (PStr c1) v1 (interleave (named <$> cvs))
         = Ok self
       /\ SetSeriesBlock.columns F_columns self
          = F_columns ∪ list_to_set (c1 :: cvs.*1))
  /\ (forall (data : geometry_data) (col_val_pairs : list pd.value),
        no_rows data -> SetSeriesBlock.process data col_val_pairs = Ok data)
  /\ (forall (f : pd.DataFrame) (p : string) (cvs : list (string * pd.value)),
        pd.len f <> 0%nat -> Forall alignable cvs.*2 ->
        exists f',
          SetSeriesBlock.process (Features f p) (interleave (name_pair <$> cvs))
            = Ok (Features f' p)
          /\ pd.index f' = pd.index f
          /\ (forall c, c ∉ cvs.*1 -> pd.columns f' !! c = pd.columns f !! c)
          /\ (forall (pre post : list (string * pd.value)) c v,
                cvs = (pre ++ (c, v) :: post)%list -> c ∉ post.*1 ->
                exists col, pd.columns f' !! c = Some col
                  /\ length col = pd.len f
                  /\ forall k l, pd.index f !! k = Some l ->
                       col !! k = Some (value_at v l))).
Proof.
  split; [|split].
  - intros source F_columns cvs c1 v1 Hsrc.
    assert (Heven : (length (PStr c1 :: v1 :: interleave (named <$> cvs)) mod 2 =? 0)%nat = true).
    { simpl length. rewrite length_interleave, length_fmap. apply Nat.eqb_eq.
      replace (S (S (2 * length cvs))) with ((S (length cvs)) * 2)%nat by lia.
      apply Nat.Div0.mod_mul. }
    assert (Hnames : every_other (PStr c1 :: v1 :: interleave (named <$> cvs))
                     = PStr <$> (c1 :: cvs.*1)).
    { simpl. f_equal. by rewrite every_other_interleave, named_fst. }
    rewrite SetSeriesBlock_init_ok; [|done|done|by rewrite Hnames, forallb_is_str].
    eexists. split; [reflexivity|].
    unfold SetSeriesBlock.columns, SetSeriesBlock.args.
    cbn [drop]. by rewrite Hnames, set_of_names_strings.
  - intros data args Hrows. unfold SetSeriesBlock.process.
    destruct data as [f p|e p|p]; simpl in *; [|done..].
    by rewrite Hrows.
  - intros f p cvs Hlen Hal. unfold SetSeriesBlock.process.
    rewrite (proj2 (Nat.eqb_neq _ _) Hlen).
    rewrite every_other_interleave, every_other_drop_interleave, zip_fst_snd.
    rewrite assign_aligned by done. simpl.
    eexists. split; [reflexivity|]. simpl. split; [done|]. split.
    + intros c Hc. by apply foldl_assigned_other.
    + intros pre post c v -> Hc. eexists. split; [by apply foldl_assigned_last|].
      split; [by rewrite length_map|].
      intros k l Hk. change ((value_at v <$> pd.index f) !! k = Some (value_at v l)).
      by rewrite list_lookup_fmap, Hk.
Qed.

End SetSeriesBlock_facts.

(** ** [SeriesBlock] *)

(** Negation is the product with the literal -1, [a * -1]. *)
Lemma SeriesBlock_neg_mul (a : pyarg) :
  SeriesBlock_.__neg__ a = SeriesBlock_.__mul__ a (PNum (-1)).
Proof. reflexivity. Qed.

(** C7. For a series block [a], [-a] is the block that [Multiply(a, -1)]
    builds: a [Multiply] node whose arguments are [a] and the literal -1,
    and no node of another kind; so an evaluator gives the same result for
    both, for every request. *)
Theorem SeriesBlock_neg_is_multiply (a : pyarg) :
  isinstance a SeriesBlock = true ->
  SeriesBlock_.__neg__ a = Multiply a (PNum (-1))
  /\ SeriesBlock_.__neg__ a = Ok (Blk "Multiply" SeriesBlock [a; PNum (-1)])
  /\ forall (Request Result : Type)
            (get_data : result pyarg -> Request -> Result) (request : Request),
       get_data (SeriesBlock_.__neg__ a) request
       = get_data (Multiply a (PNum (-1))) request.
Proof.
  intros Ha. split; [reflexivity|]. split; [|reflexivity].
  unfold SeriesBlock_.__neg__, Multiply, BaseSingleSeries.__init__.
  by rewrite Ha.
Qed.

Lemma SeriesBlock_neg_is_multiply_witness :
  SeriesBlock_.__neg__ (Blk "GetSeriesBlock" SeriesBlock [PStr "height"])
  = Ok (Blk "Multiply" SeriesBlock
          [Blk "GetSeriesBlock" SeriesBlock [PStr "height"]; PNum (-1)]).
Proof.
  exact (proj1 (proj2 (SeriesBlock_neg_is_multiply
    (Blk "GetSeriesBlock" SeriesBlock [PStr "height"]) eq_refl))).
Defined.

(** ** [GeometryFileSource] *)

Section limit_facts.
Context `{GeometryEngine}.
Variable GEOMETRY_LIMIT : Z.

Lemma iloc_to_length (f : pd.DataFrame) (n : Z) :
  0 <= n -> pd.len (pd.iloc_to f n) = Nat.min (Z.to_nat n) (pd.len f).
Proof.
  intros Hn. unfold pd.iloc_to, pd.len, pd.slice_stop. simpl.
  rewrite (proj2 (Z.leb_le 0 n) Hn). apply length_take.
Qed.

(** Without a limit in the request the default limit decides, and exceeding
    it is an error. *)
Lemma apply_limit_default (f : pd.DataFrame) :
  GeometryFileSource.apply_limit GEOMETRY_LIMIT None f
  = if bool_decide (GEOMETRY_LIMIT < Z.of_nat (pd.len f))
    then Raise (RuntimeError
                  "The amount of returned geometries exceeded the maximum")
    else Ok f.
Proof. reflexivity. Qed.

(** With a limit in the request there is no error. *)
Lemma apply_limit_explicit (limit : Z) (f : pd.DataFrame) :
  raises (GeometryFileSource.apply_limit GEOMETRY_LIMIT (Some limit) f) = false.
Proof.
  unfold GeometryFileSource.apply_limit.
  destruct (truthy (Some limit) && _); [done|]. by rewrite bool_decide_eq_false_2.
Qed.

(** A positive limit truncates to the first [limit] rows. *)
Lemma apply_limit_positive (limit : Z) (f : pd.DataFrame) :
  0 < limit ->
  exists f', GeometryFileSource.apply_limit GEOMETRY_LIMIT (Some limit) f = Ok f'
    /\ pd.index f' = take (Z.to_nat limit) (pd.index f)
    /\ Z.of_nat (pd.len f') <= limit.
Proof.
  intros Hpos. unfold GeometryFileSource.apply_limit. simpl.
  destruct (Z.eqb_spec limit 0) as [->|_]; [lia|]. simpl.
  case_bool_decide as Hlen; simpl.
  - eexists. split; [reflexivity|]. split.
    + unfold pd.iloc_to, pd.slice_stop. simpl.
      by rewrite (proj2 (Z.leb_le 0 limit)) by lia.
    + rewrite iloc_to_length by lia. lia.
  - exists f. split; [done|]. split; [|lia].
    symmetry. apply take_ge. unfold pd.len in Hlen. lia.
Qed.

(** A limit of zero neither truncates nor checks. *)
Lemma apply_limit_zero (f : pd.DataFrame) :
  GeometryFileSource.apply_limit GEOMETRY_LIMIT (Some 0) f = Ok f.
Proof. reflexivity. Qed.

(** The error of the limit is raised exactly without a limit in the request
    and with more rows than the default limit. *)
Lemma apply_limit_error_iff (limit : option Z) (f : pd.DataFrame) :
  raises (GeometryFileSource.apply_limit GEOMETRY_LIMIT limit f) = true
  <-> limit = None /\ GEOMETRY_LIMIT < Z.of_nat (pd.len f).
Proof.
  destruct limit as [l|].
  - rewrite apply_limit_explicit. split; [done|]. by intros [? _].
  - rewrite apply_limit_default. case_bool_decide; simpl; split; try done.
    by intros [_ ?].
Qed.

Variable safe_abspath : string -> result string.
Variable from_file : string -> geometry -> option string -> pd.DataFrame.
Variable file_srs : string.

(** In the modes 'intersects' and 'centroid', [process] applies the limit
    to the rows selected from a non-empty file. *)
Lemma process_features url path (request : GeometryFileSource.file_request)
    (f : pd.DataFrame) :
  safe_abspath url = Ok path ->
  pd.len (from_file path (req_geometry (GeometryFileSource.request request))
            (GeometryFileSource.layer request)) <> 0%nat ->
  GeometryFileSource.select file_srs request
    (from_file path (req_geometry (GeometryFileSource.request request))
       (GeometryFileSource.layer request)) = Ok f ->
  req_mode (GeometryFileSource.request request) <> "extent" ->
  GeometryFileSource.process safe_abspath from_file file_srs GEOMETRY_LIMIT
    url request
  = (f' ← GeometryFileSource.apply_limit GEOMETRY_LIMIT
             (req_limit (GeometryFileSource.request request)) f;
     Ok (Features f' (req_projection (GeometryFileSource.request request)))).
Proof.
  intros Hpath Hlen Hsel Hmode. unfold GeometryFileSource.process.
  rewrite Hpath. cbn [mbind result_bind].
  rewrite (proj2 (Nat.eqb_neq _ _) Hlen), Hsel. cbn [mbind result_bind].
  by rewrite decide_False.
Qed.

End limit_facts.

(** ** Concrete runs *)

Section runs.
#[local] Existing Instance Rectangles.engine.

(** C4. An 'intersects' request with the explicit limit 0 on a file of three
    matching parcels returns all three rows, not at most 0 of them; the
    limit 2 returns the first two rows, and without limit a default limit
    of 2 raises the error. The limit 0 reaches the source through
    [Rasterize(source, limit=0)], which the constructor builds and whose
    request to the source carries the limit 0. *)
Theorem GeometryFileSource_limit_zero_returns_all_rows :
  Parcels.labels (Parcels.read 1000 (Some 0))
    = Some [Some (Num 10); Some (Num 11); Some (Num 12)]
  /\ Parcels.labels (Parcels.read 1000 (Some 2))
    = Some [Some (Num 10); Some (Num 11)]
  /\ Parcels.read 2 None
     = Raise (RuntimeError "The amount of returned geometries exceeded the maximum")
  /\ raises (Parcels.read 2 (Some 0)) = false
  /\ exists self request kwargs,
       Rasterize.__init__ GeometryBlock None None (Some 0) = Ok self
       /\ Rasterize.get_sources_and_requests 1000 self
            (Parcels.raster_request
               (Parcels.q 0, Parcels.q 0, Parcels.q 10, Parcels.q 10))
          = Ok [(Rasterize.TheSource, Some request);
                (Rasterize.Literal kwargs, None)]
       /\ req_limit request = Some 0.
Proof.
  split; [vm_compute; reflexivity|]. split; [vm_compute; reflexivity|].
  split; [vm_compute; reflexivity|]. split; [vm_compute; reflexivity|].
  eexists _, _, _. split; [reflexivity|]. split; reflexivity.
Qed.


Lemma Difference_empty_extent_shortcut_witness :
  Difference.get_data
    (fun _ => Ok (Extent None "EPSG:28992"))
    (fun _ => Raise (RuntimeError "the other block is not to be asked"))
    Parcels.request
  = Ok (Features pd.empty_frame "EPSG:28992").
Proof.
  refine (proj2 (proj2 (Difference_empty_extent_shortcut
    (fun _ => Ok (Extent None "EPSG:28992"))
    (fun _ => Raise (RuntimeError "the other block is not to be asked"))
    Parcels.request "EPSG:28992" _ eq_refl))).
  discriminate.
Defined.

End runs.

(** * Further properties of the raster blocks *)

Lemma putmask_map (f : Z -> Z) (p : Z -> bool) (x : Z) (values : list Z) :
  np.putmask (map f values) (map p values) x
  = map (fun v => if p v then x else f v) values.
Proof.
  induction values as [|v values IH]; simpl; [done|]. by rewrite IH.
Qed.

Lemma putmask_map_id (p : Z -> bool) (x : Z) (values : list Z) :
  np.putmask values (map p values) x
  = map (fun v => if p v then x else v) values.
Proof.
  rewrite <- (map_id values) at 1. apply putmask_map.
Qed.

(** ** [Step] *)


(** ** [MaskBelow] *)

Lemma MaskBelow_process_map values nd value :
  MaskBelow.process (Some (Vals values nd)) value
  = Some (Vals (map (fun v => if v <? value then stored_no_data nd else v) values)
               nd).
Proof. unfold MaskBelow.process, np.lt. by rewrite putmask_map_id. Qed.

(** X2. [MaskBelow.process] keeps the size of the grid and its no-data value,
    turns every cell below the value into the no-data value and leaves every
    other cell as it is. *)
Theorem MaskBelow_process_cells (values : list Z) (nd value : Z) :
  exists out,
    MaskBelow.process (Some (Vals values (Some nd))) value
      = Some (Vals out (Some nd))
    /\ length out = length values
    /\ forall i v, values !! i = Some v ->
        (v < value -> out !! i = Some nd)
        /\ (value <= v -> out !! i = Some v).
Proof.
  rewrite MaskBelow_process_map. eexists. split; [reflexivity|].
  split; [by rewrite length_map|].
  intros i v Hi. rewrite list_lookup_fmap, Hi. simpl.
  destruct (Z.ltb_spec v value); split; intros; try lia; done.
Qed.

(** X3. Masking below one value and then below another is masking below the
    larger of the two. *)
Theorem MaskBelow_process_twice (values : list Z) (nd v1 v2 : Z) :
  MaskBelow.process (MaskBelow.process (Some (Vals values (Some nd))) v1) v2
  = MaskBelow.process (Some (Vals values (Some nd))) (Z.max v1 v2).
Proof.
  rewrite !MaskBelow_process_map, map_map. do 2 f_equal.
  apply map_ext. intros v. simpl.
  destruct (Z.ltb_spec v v1), (Z.ltb_spec v (Z.max v1 v2)); try lia.
  - by destruct (nd <? v2).
  - destruct (Z.ltb_spec v v2); [done|lia].
  - destruct (Z.ltb_spec v v2); [lia|done].
Qed.

(** ** [Mask] *)

(** X4. For a constant that fits the dtype, [Mask.process] writes the constant
    in the cells of the index of the data and the fill value in all others,
    and the fill value differs from the constant. *)
Theorem Mask_process_cells (get_index : list Z -> option Z -> list bool)
    values nd value :
  0 <= value <= 255 ->
  length (get_index values nd) = length values ->
  exists out,
    Mask.process get_index (Some (Vals values nd)) value
      = Some (Vals out (Some (Mask.fillvalue value)))
    /\ length out = length values
    /\ Mask.fillvalue value <> value
    /\ forall i (b : bool), get_index values nd !! i = Some b ->
         out !! i = Some (if b then value else Mask.fillvalue value).
Proof.
  intros Hvalue Hlen. unfold Mask.process, Mask.fillvalue.
  eexists. split; [reflexivity|]. split; [|split].
  - rewrite putmask_length. unfold np.full. by rewrite length_replicate.
  - destruct (Z.eqb_spec value 0); lia.
  - intros i b Hi. rewrite putmask_lookup, Hi.
    assert (i < length values)%nat as Hlt.
    { rewrite <- Hlen. by eapply lookup_lt_Some. }
    unfold np.full. rewrite (lookup_replicate_2 _ _ i Hlt).
    destruct b; simpl.
    + by rewrite cast_uint8_small by lia.
    + rewrite cast_uint8_small; [done|]. destruct (value =? 0); lia.
Qed.

Lemma Mask_process_cells_witness :
  exists out,
    Mask.process (fun values nd => map (fun v => negb (bool_decide (Some v = nd))) values)
      (Some (Vals [3; -9999; 8] (Some (-9999)))) 0
      = Some (Vals out (Some (Mask.fillvalue 0)))
    /\ length out = length [3; -9999; 8]
    /\ Mask.fillvalue 0 <> 0
    /\ forall i (b : bool),
         map (fun v => negb (bool_decide (Some v = Some (-9999)))) [3; -9999; 8] !! i
           = Some b ->
         out !! i = Some (if b then 0 else Mask.fillvalue 0).
Proof.
  apply (Mask_process_cells
    (fun values nd => map (fun v => negb (bool_decide (Some v = nd))) values)
    [3; -9999; 8] (Some (-9999)) 0).
  - lia.
  - reflexivity.
Defined.

(** ** [Classify] *)

Lemma nondecreasing_sorted (l : list Z) :
  StronglySorted Z.le l -> np.nondecreasing l = true.
Proof.
  induction 1 as [|x l Hl IH Hx]; [done|].
  destruct l as [|y l]; [done|].
  change (np.nondecreasing (x :: y :: l))
    with ((x <=? y) && np.nondecreasing (y :: l)).
  rewrite IH, andb_true_r. apply Z.leb_le.
  by apply Forall_cons in Hx as [? _].
Qed.

Lemma filter_none (P : Z -> Prop) `{!forall x, Decision (P x)} (l : list Z) :
  Forall (fun x => ~ P x) l -> filter P l = [].
Proof.
  induction 1 as [|x l Hx Hl IH]; [done|].
  by rewrite filter_cons, decide_False.
Qed.

(** In a sorted list the entries with a downward closed property are the
    first ones. *)
Lemma filter_sorted_prefix (P : Z -> Prop) `{!forall x, Decision (P x)}
    (l : list Z) (j : nat) (b : Z) :
  StronglySorted Z.le l ->
  (forall x y, x <= y -> P y -> P x) ->
  l !! j = Some b ->
  (j < length (filter P l))%nat <-> P b.
Proof.
  intros Hl Hdown. revert j. induction Hl as [|x l Hl IH Hx]; intros j Hj; [done|].
  rewrite filter_cons. destruct (decide (P x)) as [HP|HP].
  - destruct j as [|j]; simpl in *.
    + injection Hj as <-. split; [done|lia].
    + rewrite <- (IH j Hj). lia.
  - rewrite filter_none.
    + simpl. split; [lia|]. intros Hb. destruct j as [|j]; simpl in Hj.
      * injection Hj as <-. done.
      * apply list_elem_of_lookup_2 in Hj.
        rewrite Forall_forall in Hx. specialize (Hx _ Hj). exfalso. eauto.
    + eapply Forall_impl; [exact Hx|]. simpl. intros y Hy HPy. eauto.
Qed.

Lemma get_uint_dtype_room (n : Z) :
  n <= 2 ^ 64 ->
  np.signed (get_uint_dtype n) = false /\ n <= 2 ^ np.bits (get_uint_dtype n).
Proof.
  intros Hn. unfold get_uint_dtype.
  destruct (Z.leb_spec n (2 ^ 8)); [done|].
  destruct (Z.leb_spec n (2 ^ 16)); [done|].
  destruct (Z.leb_spec n (2 ^ 32)); [done|]. done.
Qed.

Lemma cast_unsigned_small (d : np.dtype) (z : Z) :
  np.signed d = false -> 0 <= z < 2 ^ np.bits d -> np.cast d z = z.
Proof.
  intros Hs Hz. unfold np.cast. rewrite Hs. simpl. by apply Z.mod_small.
Qed.

Lemma searchsorted1_le (a : list Z) (sd : np.side) (v : Z) :
  (np.searchsorted1 a sd v <= length a)%nat.
Proof. destruct sd; simpl; apply length_filter. Qed.

(** X5. [Classify.process] with ascending bin edges gives a cell with data the
    number [k] of its bucket: the first [k] edges are the ones below the
    cell (at or below it, when [right] is not set). *)
Theorem Classify_process_buckets (bins : list Z) (right : bool)
    (values : list Z) (nd : option Z) (i : nat) (v : Z) :
  StronglySorted Z.le bins ->
  Z.of_nat (length bins) + 2 <= 2 ^ 64 ->
  values !! i = Some v ->
  Some v <> nd ->
  exists (out : list Z) (fill : Z) (k : nat),
    Classify.process (Some (Vals values nd)) bins right
      = Ok (Some (Vals out (Some fill)))
    /\ out !! i = Some (Z.of_nat k)
    /\ (k <= length bins)%nat
    /\ forall (j : nat) (b : Z), bins !! j = Some b ->
         ((j < k)%nat <-> if right then b < v else b <= v).
Proof.
  intros Hs Hlen Hi Hv. unfold Classify.process, np.digitize, np.monotonicity.
  rewrite (nondecreasing_sorted _ Hs). simpl.
  set (sd := if right then np.left_side else np.right_side).
  destruct (get_uint_dtype_room _ Hlen) as [Hsg Hroom].
  pose proof (searchsorted1_le bins sd v) as Hk.
  eexists _, _, (np.searchsorted1 bins sd v). split; [reflexivity|].
  split; [|split; [done|]].
  - rewrite putmask_lookup, eq_lookup, Hi. simpl.
    rewrite bool_decide_eq_false_2 by done.
    unfold np.astype, np.searchsorted. rewrite !list_lookup_fmap, Hi. simpl.
    f_equal. apply cast_unsigned_small; [done|lia].
  - intros j b Hj. subst sd. destruct right; simpl.
    + apply (filter_sorted_prefix (fun x => x < v)); [done| |done]. intros; lia.
    + apply (filter_sorted_prefix (fun x => x <= v)); [done| |done]. intros; lia.
Qed.

Lemma Classify_process_buckets_witness :
  exists (out : list Z) (fill : Z) (k : nat),
    Classify.process (Some (Vals [5; 10; -1] (Some (-1)))) [0; 10; 20] true
      = Ok (Some (Vals out (Some fill)))
    /\ out !! 1%nat = Some (Z.of_nat k)
    /\ (k <= length [0; 10; 20])%nat
    /\ forall (j : nat) (b : Z), [0; 10; 20] !! j = Some b ->
         ((j < k)%nat <-> if true then b < 10 else b <= 10).
Proof.
  apply (Classify_process_buckets [0; 10; 20] true [5; 10; -1] (Some (-1)) 1 10).
  - repeat constructor; lia.
  - simpl. lia.
  - reflexivity.
  - discriminate.
Defined.

(** X6. [Classify.process] with monotonic bin edges keeps the size of the grid
    and writes the fill value in the no-data cells and a bucket number
    between 0 and the number of edges in every other cell; the fill value is
    larger than every bucket number. *)
Theorem Classify_process_fill_is_no_bucket (bins : list Z) (right : bool)
    (values : list Z) (nd : option Z) :
  np.monotonicity bins <> 0 ->
  Z.of_nat (length bins) + 2 <= 2 ^ 64 ->
  exists (out : list Z) (fill : Z),
    Classify.process (Some (Vals values nd)) bins right
      = Ok (Some (Vals out (Some fill)))
    /\ length out = length values
    /\ Z.of_nat (length bins) < fill
    /\ forall (i : nat) (v : Z), values !! i = Some v ->
         (Some v = nd -> out !! i = Some fill)
         /\ (Some v <> nd ->
             exists k, out !! i = Some k /\ 0 <= k <= Z.of_nat (length bins)).
Proof.
  intros Hmono Hlen. unfold Classify.process, np.digitize.
  destruct (get_uint_dtype_room _ Hlen) as [Hsg Hroom].
  destruct (Z.eqb_spec (np.monotonicity bins) 0) as [|_]; [done|].
  set (sd := if right then np.left_side else np.right_side).
  assert (Z.of_nat (length bins) <
          get_dtype_max (get_uint_dtype (Z.of_nat (length bins) + 2))) as Hfill.
  { unfold get_dtype_max, np.iinfo_max. rewrite Hsg. lia. }
  destruct (np.monotonicity bins =? -1); cbn [mbind result_bind];
    (eexists _, _; split; [reflexivity|]; split; [|split; [exact Hfill|]]).
  - rewrite putmask_length. unfold np.astype, np.searchsorted.
    by rewrite !length_map.
  - intros i v Hi. rewrite putmask_lookup, eq_lookup, Hi. simpl. split.
    + intros Hv. rewrite bool_decide_eq_true_2 by done.
      unfold np.astype, np.searchsorted. by rewrite !list_lookup_fmap, Hi.
    + intros Hv. rewrite bool_decide_eq_false_2 by done.
      unfold np.astype, np.searchsorted. rewrite !list_lookup_fmap, Hi. simpl.
      pose proof (searchsorted1_le (reverse bins) sd v) as Hk.
      rewrite length_reverse in Hk.
      rewrite cast_unsigned_small by (done || lia).
      eexists. split; [reflexivity|lia].
  - rewrite putmask_length. unfold np.astype, np.searchsorted.
    by rewrite !length_map.
  - intros i v Hi. rewrite putmask_lookup, eq_lookup, Hi. simpl. split.
    + intros Hv. rewrite bool_decide_eq_true_2 by done.
      unfold np.astype, np.searchsorted. by rewrite !list_lookup_fmap, Hi.
    + intros Hv. rewrite bool_decide_eq_false_2 by done.
      unfold np.astype, np.searchsorted. rewrite !list_lookup_fmap, Hi. simpl.
      pose proof (searchsorted1_le bins sd v) as Hk.
      rewrite cast_unsigned_small by (done || lia).
      eexists. split; [reflexivity|lia].
Qed.

Lemma Classify_process_fill_is_no_bucket_witness :
  exists (out : list Z) (fill : Z),
    Classify.process (Some (Vals [5; 30; -1] (Some (-1)))) [20; 10; 0] false
      = Ok (Some (Vals out (Some fill)))
    /\ length out = length [5; 30; -1]
    /\ Z.of_nat (length [20; 10; 0]) < fill
    /\ forall (i : nat) (v : Z), [5; 30; -1] !! i = Some v ->
         (Some v = Some (-1) -> out !! i = Some fill)
         /\ (Some v <> Some (-1) ->
             exists k, out !! i = Some k /\ 0 <= k <= Z.of_nat (length [20; 10; 0])).
Proof.
  apply (Classify_process_fill_is_no_bucket [20; 10; 0] false [5; 30; -1] (Some (-1))).
  - discriminate.
  - simpl. lia.
Defined.

(** ** [Reclassify] *)




(** ** [Clip] *)

Lemma all_eq_Forall (values : list Z) (nd : option Z) :
  np.all (np.eq values nd) = true <-> Forall (fun v => Some v = nd) values.
Proof.
  unfold np.all, np.eq. induction values as [|v values IH]; simpl.
  - split; [constructor|done].
  - rewrite andb_true_iff, IH, Forall_cons. unfold id.
    by rewrite bool_decide_eq_true.
Qed.

Lemma putmask_twice (a : list Z) (mask : list bool) (x : Z) :
  np.putmask (np.putmask a mask x) mask x = np.putmask a mask x.
Proof.
  apply list_eq. intros i. rewrite !putmask_lookup.
  destruct (mask !! i) as [[|]|]; try done. by destruct (a !! i).
Qed.

(** X9. [Clip.process] on a grid that holds data, with the response of the
    source: the result has the size and the no-data value of the grid, a
    cell in which the source has no data is the no-data value, and every
    other cell is the cell of the grid. *)
Theorem Clip_process_cells (values : list Z) (nd : Z)
    (source_data : Clip.source_response) (mask : list bool) :
  ~ Forall (fun v => v = nd) values ->
  Clip.source_mask source_data = Ok mask ->
  length mask = length values ->
  exists out : list Z,
    Clip.process (Some (Vals values (Some nd))) (Some source_data)
      = Ok (Some (Vals out (Some nd)))
    /\ length out = length values
    /\ forall (i : nat) (v : Z) (no_data : bool),
         values !! i = Some v -> mask !! i = Some no_data ->
         out !! i = Some (if no_data then nd else v).
Proof.
  intros Hdata Hmask Hlen. unfold Clip.process.
  destruct (np.all (np.eq values (Some nd))) eqn:E.
  { apply all_eq_Forall in E. exfalso. apply Hdata.
    eapply Forall_impl; [exact E|]. simpl. by intros v [= ->]. }
  rewrite Hmask. cbn [mbind result_bind].
  eexists. split; [reflexivity|]. split; [apply putmask_length|].
  intros i v b Hi Hb. rewrite putmask_lookup, Hb, Hi. by destruct b.
Qed.

Lemma Clip_process_cells_witness :
  exists out : list Z,
    Clip.process (Some (Vals [4; 5; 6] (Some 0)))
      (Some (Clip.Response (Vals [1; 9; 1] (Some 9))))
      = Ok (Some (Vals out (Some 0)))
    /\ length out = length [4; 5; 6]
    /\ forall (i : nat) (v : Z) (no_data : bool),
         [4; 5; 6] !! i = Some v -> [false; true; false] !! i = Some no_data ->
         out !! i = Some (if no_data then 0 else v).
Proof.
  apply (Clip_process_cells [4; 5; 6] 0
           (Clip.Response (Vals [1; 9; 1] (Some 9))) [false; true; false]).
  - intros H. apply Forall_cons in H as [? _]. discriminate.
  - reflexivity.
  - reflexivity.
Defined.

(** X10. Clipping a second time with the same source response changes nothing. *)
Theorem Clip_process_twice (values : list Z) (nd : Z) (r : option raster_data)
    (source_data : option Clip.source_response) :
  Clip.process (Some (Vals values (Some nd))) source_data = Ok r ->
  Clip.process r source_data = Ok r.
Proof.
  unfold Clip.process.
  destruct (np.all (np.eq values (Some nd))) eqn:E.
  { intros [= <-]. by rewrite E. }
  destruct source_data as [s|]; [|by intros [= <-]].
  destruct (Clip.source_mask s) as [mask|e] eqn:Hmask; [|done].
  cbn [mbind result_bind]. intros [= <-].
  rewrite putmask_twice. by case_match.
Qed.

Lemma Clip_process_twice_witness :
  Clip.process (Some (Vals [4; 0; 6] (Some 0))) (Some (Clip.BoolGrid [true; false; true]))
  = Ok (Some (Vals [4; 0; 6] (Some 0))).
Proof.
  apply (Clip_process_twice [4; 5; 6] 0 (Some (Vals [4; 0; 6] (Some 0)))
           (Some (Clip.BoolGrid [true; false; true]))).
  reflexivity.
Defined.

(** X11. [Clip.process] without data: a missing response of the store gives
    None; a grid of no-data cells is returned as it is, whatever the source
    gives, even nothing; a grid that holds data gives None when the source
    gives nothing. *)
Theorem Clip_process_without_data :
  (forall source_data, Clip.process None source_data = Ok None)
  /\ (forall values nd source_data,
        Forall (fun v => Some v = nd) values ->
        Clip.process (Some (Vals values nd)) source_data
        = Ok (Some (Vals values nd)))
  /\ (forall values nd,
        ~ Forall (fun v => Some v = nd) values ->
        Clip.process (Some (Vals values nd)) None = Ok None).
Proof.
  split; [done|]. split.
  - intros values nd s H. apply all_eq_Forall in H. simpl. by rewrite H.
  - intros values nd H. simpl. destruct (np.all _) eqn:E; [|done].
    by apply all_eq_Forall in E.
Qed.

Lemma max_le_iff (a b x : Qc) : (max_ a b ≤ x)%Qc <-> (a ≤ x)%Qc /\ (b ≤ x)%Qc.
Proof.
  unfold max_. destruct (decide (a < b)%Qc) as [Hlt|Hge].
  - split; [|by intros [_ ?]]. intros Hb. split; [|done].
    apply Qclt_le_weak. by eapply Qclt_le_trans.
  - apply Qcnot_lt_le in Hge. split; [|by intros [? _]]. intros Ha.
    split; [done|]. by eapply Qcle_trans.
Qed.

Lemma min_ge_iff (a b x : Qc) :
  (x ≤ Rasterize.min_ a b)%Qc <-> (x ≤ a)%Qc /\ (x ≤ b)%Qc.
Proof.
  unfold Rasterize.min_. destruct (decide (b < a)%Qc) as [Hlt|Hge].
  - split; [|by intros [_ ?]]. intros Hb. split; [|done].
    apply Qclt_le_weak. by eapply Qcle_lt_trans.
  - apply Qcnot_lt_le in Hge. split; [|by intros [? _]]. intros Ha.
    split; [done|]. by eapply Qcle_trans.
Qed.

Lemma max_lt_iff (a b x : Qc) : (max_ a b < x)%Qc <-> (a < x)%Qc /\ (b < x)%Qc.
Proof.
  unfold max_. destruct (decide (a < b)%Qc) as [Hlt|Hge].
  - split; [|by intros [_ ?]]. intros Hb. split; [|done].
    by eapply Qclt_trans.
  - apply Qcnot_lt_le in Hge. split; [|by intros [? _]]. intros Ha.
    split; [done|]. by eapply Qcle_lt_trans.
Qed.

Lemma min_gt_iff (a b x : Qc) :
  (x < Rasterize.min_ a b)%Qc <-> (x < a)%Qc /\ (x < b)%Qc.
Proof.
  unfold Rasterize.min_. destruct (decide (b < a)%Qc) as [Hlt|Hge].
  - split; [|by intros [_ ?]]. intros Hb. split; [|done].
    by eapply Qclt_trans.
  - apply Qcnot_lt_le in Hge. split; [|by intros [? _]]. intros Ha.
    split; [done|]. by eapply Qclt_le_trans.
Qed.

Lemma max_comm (a b : Qc) : max_ a b = max_ b a.
Proof.
  unfold max_. destruct (decide (a < b)%Qc) as [Hab|Hab],
    (decide (b < a)%Qc) as [Hba|Hba]; try done.
  - exfalso. apply (Qclt_not_le _ _ Hab). by apply Qclt_le_weak.
  - apply Qcnot_lt_le in Hab, Hba. by apply Qcle_antisym.
Qed.

Lemma min_comm (a b : Qc) : Rasterize.min_ a b = Rasterize.min_ b a.
Proof.
  unfold Rasterize.min_. destruct (decide (a < b)%Qc) as [Hab|Hab],
    (decide (b < a)%Qc) as [Hba|Hba]; try done.
  - exfalso. apply (Qclt_not_le _ _ Hab). by apply Qclt_le_weak.
  - apply Qcnot_lt_le in Hab, Hba. by apply Qcle_antisym.
Qed.

(** X12. [Clip.extent] is the overlap of the two extents: when it is a box, the
    box has an interior and holds exactly the points that lie in both
    extents; when it is None, no point lies in the interior of both; and
    the order of the two extents does not matter. *)
Theorem Clip_extent_is_overlap (result mask : bbox) :
  (forall b, Clip.extent (Some result) (Some mask) = Some b ->
     ~ degenerate_window b
     /\ forall x y, inside b x y <-> inside result x y /\ inside mask x y)
  /\ (Clip.extent (Some result) (Some mask) = None ->
      forall x y, ~ (interior result x y /\ interior mask x y))
  /\ Clip.extent (Some result) (Some mask) = Clip.extent (Some mask) (Some result).
Proof.
  destruct result as [[[rx1 ry1] rx2] ry2], mask as [[[mx1 my1] mx2] my2].
  unfold Clip.extent. split; [|split].
  - intros b. case_decide as Hd; [done|]. intros [= <-]. split; [exact Hd|].
    intros x y. unfold inside.
    rewrite !max_le_iff, !min_ge_iff. tauto.
  - case_decide as Hd; [|done]. intros _ x y. unfold interior.
    intros [(Hx1 & Hx2 & Hy1 & Hy2) (Hx1' & Hx2' & Hy1' & Hy2')].
    destruct Hd as [Hd|Hd]; apply (Qcle_not_lt _ _ Hd).
    + apply Qclt_trans with x; [by apply max_lt_iff|by apply min_gt_iff].
    + apply Qclt_trans with y; [by apply max_lt_iff|by apply min_gt_iff].
  - by rewrite (max_comm rx1), (max_comm ry1), (min_comm rx2), (min_comm ry2).
Qed.

(** ** [Rasterize] *)

(** X13. [Rasterize.__init__] builds the block exactly for a geometry source and
    a limit that is absent, 0, or at least 1; without dtype the raster is
    boolean when no column is named and ['int32'] otherwise. *)
Theorem Rasterize_init_accepts (source : capability)
    (column_name : option string) (dtype : option Rasterize.raster_dtype)
    (limit : option Z) (self : Rasterize.t) :
  Rasterize.__init__ source column_name dtype limit = Ok self
  <-> source = GeometryBlock
      /\ (forall l, limit = Some l -> l = 0 \/ 1 <= l)
      /\ self = Rasterize.Build column_name
                  (default (match column_name with
                            | None => Rasterize.Bool
                            | Some _ => Rasterize.Int np.int32
                            end) dtype)
                  limit.
Proof.
  unfold Rasterize.__init__. case_bool_decide as Hs; cbn [negb].
  - assert (dflt : forall d : option Rasterize.raster_dtype,
      match d with
      | Some d' => d'
      | None => match column_name with
                | None => Rasterize.Bool
                | Some _ => Rasterize.Int np.int32
                end
      end = default (match column_name with
                     | None => Rasterize.Bool
                     | Some _ => Rasterize.Int np.int32
                     end) d) by by intros [|].
    rewrite dflt. destruct limit as [l|]; simpl.
    + destruct (Z.eqb_spec l 0) as [->|Hl]; simpl.
      * split; [intros [= <-]|by intros (_ & _ & ->)].
        split; [done|]. split; [|done]. intros l [= <-]. by left.
      * case_bool_decide as Hlt.
        -- split; [done|]. intros (_ & Hl' & _).
           destruct (Hl' l eq_refl); lia.
        -- split; [intros [= <-]|by intros (_ & _ & ->)].
           split; [done|]. split; [|done]. intros l' [= <-]. right. lia.
    + split; [intros [= <-]|by intros (_ & _ & ->)]. done.
  - split; [done|]. by intros [? _].
Qed.

Lemma cast_iinfo_max (d : np.dtype) : np.cast d (np.iinfo_max d) = np.iinfo_max d.
Proof. by destruct d. Qed.

Section rasterize.
Context `{GeometryEngine}.
Variable geometry_limit : Z.

Lemma Rasterize_plan_inv (self : Rasterize.t) (request : Rasterize.request)
    (pairs : list (Rasterize.source * option geometry_request))
    (src : Rasterize.source) (greq : geometry_request) :
  Rasterize.get_sources_and_requests geometry_limit self request = Ok pairs ->
  (src, Some greq) ∈ pairs ->
  Rasterize.r_mode request = "vals"
  /\ src = Rasterize.TheSource
  /\ exists min_size,
       greq = GeometryRequest "intersects" (box (Rasterize.r_bbox request))
                (Rasterize.r_projection request) min_size
                (Some (default geometry_limit (Rasterize.limit self)))
                (Rasterize.r_start request) (Rasterize.r_stop request) [].
Proof.
  unfold Rasterize.get_sources_and_requests.
  destruct (decide (Rasterize.r_mode request = "time")).
  { intros [= <-] Hin. apply elem_of_cons in Hin as [|Hin]; [done|].
    apply elem_of_cons in Hin as [|Hin]; [done|]. by apply elem_of_nil in Hin. }
  destruct (decide (Rasterize.r_mode request = "meta")).
  { intros [= <-] Hin. apply elem_of_cons in Hin as [|Hin]; [done|].
    apply elem_of_cons in Hin as [|Hin]; [done|]. by apply elem_of_nil in Hin. }
  destruct (decide (Rasterize.r_mode request <> "vals")) as [|Hvals]; [done|].
  apply dec_stable in Hvals.
  destruct (Rasterize.r_bbox request) as [[[x1 y1] x2] y2] eqn:Hbbox.
  match goal with
  | |- (mbind _ ?m) = _ -> _ => destruct m as [min_size|e]; [|done]
  end.
  cbn [mbind result_bind]. intros [= <-] Hin.
  apply elem_of_cons in Hin as [Heq|Hin].
  - injection Heq as -> ->. split; [done|]. split; [done|].
    exists min_size. by destruct (Rasterize.limit self).
  - apply elem_of_cons in Hin as [|Hin]; [done|]. by apply elem_of_nil in Hin.
Qed.

(** X14. The plan of [Rasterize] sends a request to nothing but the geometry
    source, and only for the values: that request has mode intersects, the
    box of the bbox as its geometry, the projection and the time span of the
    raster request, and always a limit, the one of the block or else the
    global one. *)
Theorem Rasterize_plan_request (self : Rasterize.t)
    (request : Rasterize.request)
    (pairs : list (Rasterize.source * option geometry_request))
    (src : Rasterize.source) (greq : geometry_request) :
  Rasterize.get_sources_and_requests geometry_limit self request = Ok pairs ->
  (src, Some greq) ∈ pairs ->
  Rasterize.r_mode request = "vals"
  /\ src = Rasterize.TheSource
  /\ req_mode greq = "intersects"
  /\ req_geometry greq = box (Rasterize.r_bbox request)
  /\ req_projection greq = Rasterize.r_projection request
  /\ req_start greq = Rasterize.r_start request
  /\ req_stop greq = Rasterize.r_stop request
  /\ req_limit greq = Some (default geometry_limit (Rasterize.limit self)).
Proof.
  intros Hplan Hin.
  destruct (Rasterize_plan_inv _ _ _ _ _ Hplan Hin) as (Hm & Hs & ms & ->).
  done.
Qed.

(** X15. The request that [Rasterize] sends never makes the file source raise
    the error of the geometry limit: the rows are cut down to the limit
    instead, when the limit is positive. *)
Theorem Rasterize_request_is_limited (self : Rasterize.t)
    (request : Rasterize.request)
    (pairs : list (Rasterize.source * option geometry_request))
    (src : Rasterize.source) (greq : geometry_request)
    (GEOMETRY_LIMIT : Z) (f : pd.DataFrame) :
  Rasterize.get_sources_and_requests geometry_limit self request = Ok pairs ->
  (src, Some greq) ∈ pairs ->
  exists f',
    GeometryFileSource.apply_limit GEOMETRY_LIMIT (req_limit greq) f = Ok f'
    /\ (0 < default geometry_limit (Rasterize.limit self) ->
        Z.of_nat (pd.len f') <= default geometry_limit (Rasterize.limit self)).
Proof.
  intros Hplan Hin.
  destruct (Rasterize_plan_inv _ _ _ _ _ Hplan Hin) as (Hm & Hs & ms & ->).
  simpl. set (l := default geometry_limit (Rasterize.limit self)).
  destruct (decide (0 < l)) as [Hl|Hl].
  - destruct (apply_limit_positive GEOMETRY_LIMIT l f Hl) as (f' & Hf & _ & Hlen).
    exists f'. by split.
  - pose proof (apply_limit_explicit GEOMETRY_LIMIT l f) as Hr.
    destruct (GeometryFileSource.apply_limit GEOMETRY_LIMIT (Some l) f) as [f'|e];
      [|done].
    exists f'. split; [done|]. intros. lia.
Qed.

Lemma Rasterize_plan_kwargs (self : Rasterize.t) (request : Rasterize.request)
    (pairs : list (Rasterize.source * option geometry_request))
    (kw : Rasterize.process_kwargs) :
  Rasterize.get_sources_and_requests geometry_limit self request = Ok pairs ->
  Rasterize.r_mode request = "vals" ->
  (Rasterize.Literal kw, None) ∈ pairs ->
  kw = Rasterize.KwVals (Rasterize.column_name self) (Rasterize.dtype self)
         (Rasterize.fillvalue self) (Rasterize.r_width request)
         (Rasterize.r_height request) (Rasterize.r_bbox request).
Proof.
  unfold Rasterize.get_sources_and_requests. intros Hplan Hmode. revert Hplan.
  rewrite Hmode.
  rewrite !(decide_False (P := "vals" = _)) by done.
  rewrite (decide_False (P := "vals" <> "vals")) by (intros Hne; by apply Hne).
  destruct (Rasterize.r_bbox request) as [[[x1 y1] x2] y2] eqn:Hbbox.
  match goal with
  | |- (mbind _ ?m) = _ -> _ => destruct m as [min_size|e]; [|done]
  end.
  cbn [mbind result_bind]. intros [= <-] Hin.
  apply elem_of_cons in Hin as [Heq|Hin]; [done|].
  apply elem_of_cons in Hin as [Heq|Hin]; [by injection Heq as ->|].
  by apply elem_of_nil in Hin.
Qed.

Lemma no_data_cell_block (self : Rasterize.t) :
  RasterizeProcess.no_data_cell (Rasterize.dtype self) (Rasterize.fillvalue self)
  = Ok (default 0 (Rasterize.fillvalue self)).
Proof.
  unfold Rasterize.fillvalue. destruct (Rasterize.dtype self) as [|d]; [done|].
  simpl. unfold get_dtype_max. by rewrite cast_iinfo_max.
Qed.

Variable rasterize_geoseries :
  option pd.Series -> option pd.Series -> bbox -> string -> Z -> Z ->
  result (list Z * option Z).

(** X16. With the arguments that the plan of the block hands over,
    [Rasterize.process] answers a table without rows, or without the column
    to rasterize, with a grid of height times width cells that all hold the
    fill value of the block (0 in a boolean raster); the rasterization
    engine is not consulted. *)
Theorem Rasterize_process_nothing_to_rasterize (self : Rasterize.t)
    (request : Rasterize.request)
    (pairs : list (Rasterize.source * option geometry_request))
    (kw : Rasterize.process_kwargs) (index_name : option string)
    (f : pd.DataFrame) (projection : string) :
  Rasterize.get_sources_and_requests geometry_limit self request = Ok pairs ->
  Rasterize.r_mode request = "vals" ->
  (Rasterize.Literal kw, None) ∈ pairs ->
  pd.len f = 0%nat
  \/ (exists name, Rasterize.column_name self = Some name
        /\ pd.columns f !! name = None /\ index_name <> Some name) ->
  0 <= Rasterize.r_height request ->
  0 <= Rasterize.r_width request ->
  RasterizeProcess.process rasterize_geoseries index_name
    (RasterizeProcess.Geometries (Features f projection)) kw
  = Ok (RasterizeProcess.RVals
          (replicate
             (Z.to_nat (Rasterize.r_height request * Rasterize.r_width request))
             (default 0 (Rasterize.fillvalue self)))
          (Rasterize.fillvalue self)).
Proof.
  intros Hplan Hmode Hin Hnone Hh Hw.
  rewrite (Rasterize_plan_kwargs _ _ _ _ Hplan Hmode Hin).
  unfold RasterizeProcess.process.
  assert (RasterizeProcess.full (Rasterize.r_height request)
            (Rasterize.r_width request) (Rasterize.fillvalue self)
            (Rasterize.dtype self)
          = Ok (replicate
                  (Z.to_nat (Rasterize.r_height request * Rasterize.r_width request))
                  (default 0 (Rasterize.fillvalue self)))) as Hfull.
  { unfold RasterizeProcess.full.
    destruct (Z.ltb_spec (Rasterize.r_height request) 0); [lia|].
    destruct (Z.ltb_spec (Rasterize.r_width request) 0); [lia|].
    simpl. by rewrite no_data_cell_block. }
  destruct (RasterizeProcess.value_column f index_name (Rasterize.column_name self))
    as [vals|] eqn:Hcol.
  - destruct Hnone as [Hlen|(name & Hname & Hmiss & Hidx)].
    + rewrite Hlen. simpl. by rewrite Hfull.
    + unfold RasterizeProcess.value_column in Hcol.
      rewrite Hname, Hmiss in Hcol. by rewrite decide_False in Hcol.
  - by rewrite Hfull.
Qed.

(** X17. With the arguments that the plan of the block hands over,
    [Rasterize.process] converts the grid of the rasterization engine cell
    by cell to the dtype of the block, and writes the fill value of the
    block in the cells that the engine marks as no data with another
    no-data value; the result has the no-data value of the block. *)
Theorem Rasterize_process_cells (self : Rasterize.t)
    (request : Rasterize.request)
    (pairs : list (Rasterize.source * option geometry_request))
    (kw : Rasterize.process_kwargs) (index_name : option string)
    (f : pd.DataFrame) (projection : string)
    (vals : option pd.Series) (grid : list Z) (grid_no_data : option Z) :
  Rasterize.get_sources_and_requests geometry_limit self request = Ok pairs ->
  Rasterize.r_mode request = "vals" ->
  (Rasterize.Literal kw, None) ∈ pairs ->
  pd.len f <> 0%nat ->
  RasterizeProcess.value_column f index_name (Rasterize.column_name self)
    = Some vals ->
  rasterize_geoseries (RasterizeProcess.geoseries f) vals
    (Rasterize.r_bbox request) projection
    (Rasterize.r_height request) (Rasterize.r_width request)
    = Ok (grid, grid_no_data) ->
  exists out : list Z,
    RasterizeProcess.process rasterize_geoseries index_name
      (RasterizeProcess.Geometries (Features f projection)) kw
    = Ok (RasterizeProcess.RVals out (Rasterize.fillvalue self))
    /\ length out = length grid
    /\ forall (i : nat) (c : Z), grid !! i = Some c ->
         (Some c = grid_no_data -> grid_no_data <> Rasterize.fillvalue self ->
          out !! i = Some (default 0 (Rasterize.fillvalue self)))
         /\ (Some c <> grid_no_data \/ grid_no_data = Rasterize.fillvalue self ->
             out !! i = Some (RasterizeProcess.cast (Rasterize.dtype self) c)).
Proof.
  intros Hplan Hmode Hin Hlen Hcol Hgrid.
  rewrite (Rasterize_plan_kwargs _ _ _ _ Hplan Hmode Hin).
  unfold RasterizeProcess.process. rewrite Hcol.
  destruct (Nat.eqb_spec (pd.len f) 0) as [|_]; [done|].
  rewrite Hgrid. cbn [mbind result_bind]. rewrite no_data_cell_block.
  case_bool_decide as Hnd; cbn [mbind result_bind].
  - eexists. split; [reflexivity|]. split.
    + rewrite putmask_length. unfold RasterizeProcess.astype.
      by rewrite length_map.
    + intros i c Hi. rewrite putmask_lookup, eq_lookup, Hi. simpl.
      unfold RasterizeProcess.astype. rewrite list_lookup_fmap, Hi. simpl.
      split.
      * intros Hc _. by rewrite bool_decide_eq_true_2.
      * intros [Hc|Hc]; [|done]. by rewrite bool_decide_eq_false_2.
  - eexists. split; [reflexivity|]. split.
    + unfold RasterizeProcess.astype. by rewrite length_map.
    + intros i c Hi. unfold RasterizeProcess.astype.
      rewrite list_lookup_fmap, Hi. simpl. split; [|done].
      intros _ Hne. by destruct Hne.
Qed.

End rasterize.

Lemma Rasterize_plan_request_witness :
  Rasterize.r_mode
    Runs.point_request = "vals"
  /\ Rasterize.TheSource = Rasterize.TheSource
  /\ req_mode (GeometryRequest (H := Rectangles.engine) "intersects"
                 (1, 1, 1, 1) "EPSG:28992" None (Some 1000) None None [])
     = "intersects"
  /\ req_geometry (GeometryRequest (H := Rectangles.engine) "intersects"
                     (1, 1, 1, 1) "EPSG:28992" None (Some 1000) None None [])
     = box (Rasterize.r_bbox
              Runs.point_request)
  /\ req_projection (GeometryRequest (H := Rectangles.engine) "intersects"
                       (1, 1, 1, 1) "EPSG:28992" None (Some 1000) None None [])
     = "EPSG:28992"
  /\ req_start (GeometryRequest (H := Rectangles.engine) "intersects"
                  (1, 1, 1, 1) "EPSG:28992" None (Some 1000) None None [])
     = None
  /\ req_stop (GeometryRequest (H := Rectangles.engine) "intersects"
                 (1, 1, 1, 1) "EPSG:28992" None (Some 1000) None None [])
     = None
  /\ req_limit (GeometryRequest (H := Rectangles.engine) "intersects"
                  (1, 1, 1, 1) "EPSG:28992" None (Some 1000) None None [])
     = Some (default 1000 (Rasterize.limit Parcels.rasterize)).
Proof.
  apply (Rasterize_plan_request (H := Rectangles.engine) 1000 Parcels.rasterize
    Runs.point_request
    [(Rasterize.TheSource,
      Some (GeometryRequest (H := Rectangles.engine) "intersects"
              (1, 1, 1, 1) "EPSG:28992" None (Some 1000) None None []));
     (Rasterize.Literal
        (Rasterize.KwVals None Rasterize.Bool None 2 3
           (Parcels.q 1, Parcels.q 1, Parcels.q 1, Parcels.q 1)), None)]).
  - reflexivity.
  - apply list_elem_of_here.
Defined.

Lemma Rasterize_request_is_limited_witness :
  exists f',
    GeometryFileSource.apply_limit (H := Rectangles.engine) 2
      (req_limit (GeometryRequest (H := Rectangles.engine) "intersects"
                    (1, 1, 1, 1) "EPSG:28992" None (Some 1000) None None []))
      Parcels.file = Ok f'
    /\ (0 < default 1000 (Rasterize.limit Parcels.rasterize) ->
        Z.of_nat (pd.len f') <= default 1000 (Rasterize.limit Parcels.rasterize)).
Proof.
  apply (Rasterize_request_is_limited (H := Rectangles.engine) 1000
    Parcels.rasterize
    Runs.point_request
    [(Rasterize.TheSource,
      Some (GeometryRequest (H := Rectangles.engine) "intersects"
              (1, 1, 1, 1) "EPSG:28992" None (Some 1000) None None []));
     (Rasterize.Literal
        (Rasterize.KwVals None Rasterize.Bool None 2 3
           (Parcels.q 1, Parcels.q 1, Parcels.q 1, Parcels.q 1)), None)]
    Rasterize.TheSource).
  - reflexivity.
  - apply list_elem_of_here.
Defined.

Lemma Rasterize_process_nothing_to_rasterize_witness :
  RasterizeProcess.process (H := Rectangles.engine)
    (fun _ _ _ _ _ _ => Raise IndexError) None
    (RasterizeProcess.Geometries (Features pd.empty_frame "EPSG:28992"))
    (Rasterize.KwVals None Rasterize.Bool None 2 3
       (Parcels.q 1, Parcels.q 1, Parcels.q 1, Parcels.q 1))
  = Ok (RasterizeProcess.RVals [0; 0; 0; 0; 0; 0] None).
Proof.
  apply (Rasterize_process_nothing_to_rasterize (H := Rectangles.engine) 1000
    (fun _ _ _ _ _ _ => Raise IndexError) Parcels.rasterize
    Runs.point_request
    [(Rasterize.TheSource,
      Some (GeometryRequest (H := Rectangles.engine) "intersects"
              (1, 1, 1, 1) "EPSG:28992" None (Some 1000) None None []));
     (Rasterize.Literal
        (Rasterize.KwVals None Rasterize.Bool None 2 3
           (Parcels.q 1, Parcels.q 1, Parcels.q 1, Parcels.q 1)), None)]).
  - reflexivity.
  - reflexivity.
  - apply list_elem_of_further, list_elem_of_here.
  - by left.
  - simpl. lia.
  - simpl. lia.
Defined.

Lemma Rasterize_process_cells_witness :
  exists out : list Z,
    RasterizeProcess.process (H := Rectangles.engine)
      (fun _ _ _ _ _ _ => Ok ([1; 255; 0; 7; 255; 1], Some 255)) None
      (RasterizeProcess.Geometries (Features Parcels.file "EPSG:28992"))
      (Rasterize.KwVals None Rasterize.Bool None 2 3
         (Parcels.q 1, Parcels.q 1, Parcels.q 1, Parcels.q 1))
    = Ok (RasterizeProcess.RVals out (Rasterize.fillvalue Parcels.rasterize))
    /\ length out = length [1; 255; 0; 7; 255; 1]
    /\ forall (i : nat) (c : Z), [1; 255; 0; 7; 255; 1] !! i = Some c ->
         (Some c = Some 255 -> Some 255 <> Rasterize.fillvalue Parcels.rasterize ->
          out !! i = Some (default 0 (Rasterize.fillvalue Parcels.rasterize)))
         /\ (Some c <> Some 255 \/ Some 255 = Rasterize.fillvalue Parcels.rasterize ->
             out !! i
             = Some (RasterizeProcess.cast (Rasterize.dtype Parcels.rasterize) c)).
Proof.
  apply (Rasterize_process_cells (H := Rectangles.engine) 1000
    (fun _ _ _ _ _ _ => Ok ([1; 255; 0; 7; 255; 1], Some 255)) Parcels.rasterize
    Runs.point_request
    [(Rasterize.TheSource,
      Some (GeometryRequest (H := Rectangles.engine) "intersects"
              (1, 1, 1, 1) "EPSG:28992" None (Some 1000) None None []));
     (Rasterize.Literal
        (Rasterize.KwVals None Rasterize.Bool None 2 3
           (Parcels.q 1, Parcels.q 1, Parcels.q 1, Parcels.q 1)), None)]
    (Rasterize.KwVals None Rasterize.Bool None 2 3
       (Parcels.q 1, Parcels.q 1, Parcels.q 1, Parcels.q 1))
    None Parcels.file "EPSG:28992" None [1; 255; 0; 7; 255; 1] (Some 255)).
  - reflexivity.
  - reflexivity.
  - apply list_elem_of_further, list_elem_of_here.
  - apply Nat.eqb_neq. reflexivity.
  - reflexivity.
  - reflexivity.
Defined.

(** ** Series blocks *)

Lemma forallb_is_str_Forall (l : list pyarg) :
  forallb is_str l = true <-> Forall (fun x => exists s, x = PStr s) l.
Proof.
  induction l as [|x l IH]; simpl.
  - split; [constructor|done].
  - rewrite andb_true_iff, IH, Forall_cons.
    split; intros [Hx Hl]; (split; [|done]).
    + destruct x; try done. by eexists.
    + by destruct Hx as [s ->].
Qed.

Lemma mod2_even (n : nat) : (n mod 2 =? 0)%nat = true <-> Nat.Even n.
Proof.
  rewrite Nat.eqb_eq. split.
  - intros Hm. exists (n / 2)%nat. pose proof (Nat.div_mod_eq n 2). lia.
  - intros [k ->]. rewrite Nat.mul_comm. apply Nat.Div0.mod_mul.
Qed.

Lemma SetSeriesBlock_init_inv (source column value : pyarg)
    (args : list pyarg) (self : pyarg) :
  SetSeriesBlock.__init__ source column value args = Ok self ->
  isinstance source GeometryBlock = true
  /\ self = Blk "SetSeriesBlock" GeometryBlock (source :: column :: value :: args).
Proof.
  unfold SetSeriesBlock.__init__. cbv zeta.
  destruct (isinstance source GeometryBlock); cbn [negb]; [|done].
  destruct (length (column :: value :: args) mod 2 =? 0)%nat; cbn [negb]; [|done].
  destruct (forallb is_str (every_other (column :: value :: args)));
    cbn [negb]; [|done].
  by intros [= <-].
Qed.

(** X18. [SetSeriesBlock.__init__] builds the block exactly when the source is a
    geometry block, the arguments after it come in pairs and the first of
    every pair is a string; the block holds the source and the arguments in
    their order. *)
Theorem SetSeriesBlock_init_accepts (source column value : pyarg)
    (args : list pyarg) (self : pyarg) :
  SetSeriesBlock.__init__ source column value args = Ok self
  <-> isinstance source GeometryBlock = true
      /\ Nat.Even (length args)
      /\ Forall (fun x => exists s, x = PStr s)
           (every_other (column :: value :: args))
      /\ self = Blk "SetSeriesBlock" GeometryBlock
                  (source :: column :: value :: args).
Proof.
  assert (Nat.Even (length (column :: value :: args)) <-> Nat.Even (length args))
    as Heven.
  { simpl. split; intros [k Hk]; [exists (k - 1)%nat|exists (S k)]; lia. }
  unfold SetSeriesBlock.__init__. cbv zeta.
  destruct (isinstance source GeometryBlock); cbn [negb];
    [|split; [done|by intros [? _]]].
  destruct (length (column :: value :: args) mod 2 =? 0)%nat eqn:He; cbn [negb].
  - apply mod2_even, Heven in He.
    destruct (forallb is_str (every_other (column :: value :: args))) eqn:Hs;
      cbn [negb].
    + apply forallb_is_str_Forall in Hs.
      split; [by intros [= <-]|by intros (_ & _ & _ & ->)].
    + split; [done|]. intros (_ & _ & Hs' & _).
      apply forallb_is_str_Forall in Hs'. congruence.
  - split; [done|]. intros (_ & He' & _).
    apply Heven, mod2_even in He'. congruence.
Qed.

(** X19. A column can be taken from the block that [set] builds exactly when the
    source declares it or [set] names it; any other name is a KeyError. *)
Theorem GeometryBlock_set_then_getitem (source : pyarg) (F_columns : gset string)
    (c1 : string) (v1 : pyarg) (cvs : list (string * pyarg)) (self : pyarg)
    (name : string) :
  GeometryBlock_.set source (PStr c1 :: v1 :: interleave (named <$> cvs))
    = Ok self ->
  (name ∈ F_columns \/ name ∈ c1 :: cvs.*1 ->
   GeometryBlock_.__getitem__ (Ok (SetSeriesBlock.columns F_columns self)) self
     (PStr name)
   = Ok (Blk "GetSeriesBlock" SeriesBlock [self; PStr name]))
  /\ (name ∉ F_columns -> name ∉ c1 :: cvs.*1 ->
      GeometryBlock_.__getitem__ (Ok (SetSeriesBlock.columns F_columns self)) self
        (PStr name)
      = Raise (KeyError "Column is not available")).
Proof.
  unfold GeometryBlock_.set.
  intros (Hsrc & ->)%SetSeriesBlock_init_inv.
  assert (SetSeriesBlock.columns F_columns
            (Blk "SetSeriesBlock" GeometryBlock
               (source :: PStr c1 :: v1 :: interleave (named <$> cvs)))
          = F_columns ∪ list_to_set (c1 :: cvs.*1)) as ->.
  { unfold SetSeriesBlock.columns, SetSeriesBlock.args. cbn [drop].
    assert (every_other (PStr c1 :: v1 :: interleave (named <$> cvs))
            = PStr <$> (c1 :: cvs.*1)) as ->.
    { simpl. f_equal. by rewrite every_other_interleave, named_fst. }
    by rewrite set_of_names_strings. }
  unfold GeometryBlock_.__getitem__, GetSeriesBlock.__init__.
  cbn [isinstance negb mbind result_bind].
  rewrite bool_decide_eq_true_2 by done. cbn [negb].
  split.
  - intros Hin. rewrite decide_False; [done|].
    intros Hn. apply Hn. apply elem_of_union.
    destruct Hin as [?|?]; [by left|right]. by apply elem_of_list_to_set.
  - intros HF Hc. rewrite decide_True; [done|].
    intros [?|?%elem_of_list_to_set]%elem_of_union; done.
Qed.

Lemma GeometryBlock_set_then_getitem_witness :
  (("area" : string) ∈ ({["geometry"]} : gset string)
   \/ "area" ∈ "area" :: [("name", PStr "x")].*1 ->
   GeometryBlock_.__getitem__
     (Ok (SetSeriesBlock.columns {["geometry"]}
        (Blk "SetSeriesBlock" GeometryBlock
           [Blk "Difference" GeometryBlock []; PStr "area"; PNum 1;
            PStr "name"; PStr "x"])))
     (Blk "SetSeriesBlock" GeometryBlock
        [Blk "Difference" GeometryBlock []; PStr "area"; PNum 1;
         PStr "name"; PStr "x"])
     (PStr "area")
   = Ok (Blk "GetSeriesBlock" SeriesBlock
           [Blk "SetSeriesBlock" GeometryBlock
              [Blk "Difference" GeometryBlock []; PStr "area"; PNum 1;
               PStr "name"; PStr "x"]; PStr "area"]))
  /\ (("area" : string) ∉ ({["geometry"]} : gset string) ->
      "area" ∉ "area" :: [("name", PStr "x")].*1 ->
      GeometryBlock_.__getitem__
        (Ok (SetSeriesBlock.columns {["geometry"]}
           (Blk "SetSeriesBlock" GeometryBlock
              [Blk "Difference" GeometryBlock []; PStr "area"; PNum 1;
               PStr "name"; PStr "x"])))
        (Blk "SetSeriesBlock" GeometryBlock
           [Blk "Difference" GeometryBlock []; PStr "area"; PNum 1;
            PStr "name"; PStr "x"])
        (PStr "area")
      = Raise (KeyError "Column is not available")).
Proof.
  apply (GeometryBlock_set_then_getitem (Blk "Difference" GeometryBlock [])
           {["geometry"]} "area" (PNum 1) [("name", PStr "x")]).
  reflexivity.
Defined.

Section series.
Context `{GeometryEngine}.

(** X20. Reading a column back from the response of [SetSeriesBlock.process]:
    a column that was set is the series on the index of the table that
    holds, row by row, the constant or the value of the assigned series at
    the label of the row; a column that was not set is read as from the
    source. *)
Theorem GetSeriesBlock_after_set (f : pd.DataFrame) (p : string)
    (cvs : list (string * pd.value)) :
  pd.len f <> 0%nat ->
  Forall alignable cvs.*2 ->
  exists data,
    SetSeriesBlock.process (Features f p) (interleave (name_pair <$> cvs))
      = Ok data
    /\ (forall (pre post : list (string * pd.value)) c v,
          cvs = (pre ++ (c, v) :: post)%list -> c ∉ post.*1 ->
          GetSeriesBlock.process data c
          = pd.MkSeries (pd.index f) (map (value_at v) (pd.index f)))
    /\ (forall c, c ∉ cvs.*1 ->
          GetSeriesBlock.process data c
          = GetSeriesBlock.process (Features f p) c).
Proof.
  intros Hlen Hal. unfold SetSeriesBlock.process.
  rewrite (proj2 (Nat.eqb_neq _ _) Hlen).
  rewrite every_other_interleave, every_other_drop_interleave, zip_fst_snd.
  rewrite assign_aligned by done. cbn [mbind result_bind].
  eexists. split; [reflexivity|]. split.
  - intros pre post c v -> Hc. unfold GetSeriesBlock.process. simpl.
    by rewrite foldl_assigned_last.
  - intros c Hc. unfold GetSeriesBlock.process. simpl.
    by rewrite foldl_assigned_other.
Qed.

End series.

Lemma GetSeriesBlock_after_set_witness :
  exists data : @geometry_data Rectangles.engine,
    SetSeriesBlock.process (Features Parcels.a "EPSG:28992")
      (interleave (name_pair <$> [("kind", pd.Scalar (Some (Num 7)))]))
      = Ok data
    /\ (forall (pre post : list (string * @pd.value Rectangles.engine)) c v,
          [("kind", pd.Scalar (Some (Num 7)))] = (pre ++ (c, v) :: post)%list ->
          c ∉ post.*1 ->
          GetSeriesBlock.process data c
          = pd.MkSeries (pd.index Parcels.a)
              (map (value_at v) (pd.index Parcels.a)))
    /\ (forall c, c ∉ [("kind", @pd.Scalar Rectangles.engine (Some (Num 7)))].*1 ->
          GetSeriesBlock.process data c
          = GetSeriesBlock.process (Features Parcels.a "EPSG:28992") c).
Proof.
  apply (GetSeriesBlock_after_set (H := Rectangles.engine) Parcels.a "EPSG:28992"
           [("kind", pd.Scalar (Some (Num 7)))]).
  - apply Nat.eqb_neq. reflexivity.
  - repeat constructor.
Defined.

(** ** Set operations *)

(** X21. [Difference.__init__] builds the block exactly for two geometry blocks,
    and [Intersection.__init__] exactly for a geometry block and no other
    operand; both keep the operands in their order. *)
Theorem SetOperations_init_accepts (source other self : pyarg) :
  (SetOperations.Difference source other = Ok self
   <-> isinstance source GeometryBlock = true
       /\ isinstance other GeometryBlock = true
       /\ self = Blk "Difference" GeometryBlock [source; other])
  /\ (SetOperations.Intersection source other = Ok self
      <-> isinstance source GeometryBlock = true
          /\ other = PNone
          /\ self = Blk "Intersection" GeometryBlock [source; PNone]).
Proof.
  unfold SetOperations.Difference, SetOperations.Intersection,
    BaseSingle.__init__, Block__init__.
  split.
  - destruct (isinstance other GeometryBlock); cbn [negb];
      [|split; [done|by intros (_ & ? & _)]].
    destruct (isinstance source GeometryBlock); cbn [negb];
      [|split; [done|by intros (? & _)]].
    split; [by intros [= <-]|by intros (_ & _ & ->)].
  - destruct (isinstance other GeometryBlock) eqn:Ho.
    { split; [done|]. intros (_ & -> & _). done. }
    destruct other; try (split; [done|by intros (_ & ? & _)]).
    destruct (isinstance source GeometryBlock); cbn [negb];
      [|split; [done|by intros (? & _)]].
    split; [by intros [= <-]|by intros (_ & _ & ->)].
Qed.

Section difference.
Context `{GeometryEngine}.
Variable source_get_data : geometry_request -> result geometry_data.


(** X23. Whatever [Difference.process] returns for two tables of features, it is
    a table with the rows (the index) and the projection of the source, in
    which every column but the geometry is the column of the source. *)
Theorem Difference_process_keeps_rows (a b : pd.DataFrame) (pa pb : string)
    (out : geometry_data) :
  Difference.process (Features a pa) (Some (Features b pb)) = Ok out ->
  exists f,
    out = Features f pa
    /\ pd.index f = pd.index a
    /\ forall c, c <> "geometry" -> pd.columns f !! c = pd.columns a !! c.
Proof.
  unfold Difference.process. simpl.
  destruct ((pd.len a =? 0)%nat || (pd.len b =? 0)%nat).
  { intros [= <-]. by exists a. }
  destruct (pd.getitem a "geometry") as [sa|e]; [|done].
  cbn [mbind result_bind].
  destruct (pd.getitem b "geometry") as [sb|e]; [|done].
  cbn [mbind result_bind].
  destruct (pd.reindex sb (pd.s_index sa)) as [sb'|e]; [|done].
  cbn [mbind result_bind]. intros [= <-].
  eexists. split; [reflexivity|]. split; [done|].
  intros c Hc. simpl. by rewrite lookup_insert_ne.
Qed.

End difference.


Lemma Difference_process_keeps_rows_witness :
  exists f : @pd.DataFrame Rectangles.engine,
    @Features Rectangles.engine
      (pd.set_geometry Parcels.a
         (pd.MkSeries (pd.index Parcels.a)
            [Some (@Geom Rectangles.engine (0, 0, 1, 1));
             Some (@Geom Rectangles.engine (1, 1, 1, 1));
             Some (@Geom Rectangles.engine (2, 2, 3, 3))]))
      "EPSG:28992"
    = Features f "EPSG:28992"
    /\ pd.index f = pd.index Parcels.a
    /\ forall c, c <> "geometry" -> pd.columns f !! c = pd.columns Parcels.a !! c.
Proof.
  apply (Difference_process_keeps_rows (H := Rectangles.engine)
           Parcels.a Parcels.b "EPSG:28992" "EPSG:4326").
  reflexivity.
Defined.

(** ** [GeometryFileSource] *)

Lemma compress_map_Forall {A : Type} (p : A -> bool) (l : list A) :
  Forall (fun v => p v = true) (np.compress l (map p l)).
Proof.
  induction l as [|v l IH]; simpl; [constructor|].
  destruct (p v) eqn:E; [constructor|]; done.
Qed.

Section file_source.
Context `{GeometryEngine}.

(** X24. [GeometryFileSource.get_sources_and_requests] raises ValueError exactly
    for a filter on a field with a double underscore or a mode that, in
    lower case, is none of extent, intersects and centroid; otherwise it
    hands over the url and the request with the mode in lower case
    (intersects when absent), the filters (none when absent), and the layer
    and the id field of the block. *)
Theorem GeometryFileSource_plan (self : FileSourcePlan.t)
    (request : FileSourcePlan.request) :
  ((exists e, FileSourcePlan.get_sources_and_requests self request
              = Raise (ValueError e))
   <-> Exists (fun fv => FileSourcePlan.is_lookup fv.1 = true)
         (default [] (FileSourcePlan.filters request))
       \/ FileSourcePlan.lower (default "intersects" (FileSourcePlan.mode request))
          ∉ ["extent"; "intersects"; "centroid"])
  /\ (forall url r,
        FileSourcePlan.get_sources_and_requests self request = Ok (url, r) ->
        url = FileSourcePlan.url self
        /\ GeometryFileSource.layer r = FileSourcePlan.layer self
        /\ GeometryFileSource.id_field r = FileSourcePlan.id_field self
        /\ GeometryFileSource.request r
           = GeometryRequest
               (FileSourcePlan.lower
                  (default "intersects" (FileSourcePlan.mode request)))
               (FileSourcePlan.geometry_ request)
               (FileSourcePlan.projection request)
               (FileSourcePlan.min_size request)
               (FileSourcePlan.limit request)
               (FileSourcePlan.start request) (FileSourcePlan.stop request)
               (default [] (FileSourcePlan.filters request))
        /\ FileSourcePlan.lower
             (default "intersects" (FileSourcePlan.mode request))
           ∈ ["extent"; "intersects"; "centroid"]
        /\ Forall (fun fv => FileSourcePlan.is_lookup fv.1 = false)
             (default [] (FileSourcePlan.filters request))).
Proof.
  unfold FileSourcePlan.get_sources_and_requests. cbv zeta.
  set (filters := default [] (FileSourcePlan.filters request)).
  set (mode := FileSourcePlan.lower
                 (default "intersects" (FileSourcePlan.mode request))).
  destruct (existsb (fun fv => FileSourcePlan.is_lookup fv.1) filters) eqn:Hf.
  { split; [|done]. split; [|by eexists]. intros _. left.
    apply existsb_exists in Hf as (fv & Hin & Hfv).
    apply Exists_exists. exists fv. split; [by apply list_elem_of_In|done]. }
  assert (Forall (fun fv => FileSourcePlan.is_lookup fv.1 = false) filters) as Hall.
  { apply Forall_forall. intros fv Hin.
    destruct (FileSourcePlan.is_lookup fv.1) eqn:E; [|done].
    assert (existsb (fun fv => FileSourcePlan.is_lookup fv.1) filters = true)
      as Hex; [|congruence].
    apply existsb_exists. exists fv. split; [by apply list_elem_of_In|done]. }
  case_bool_decide as Hm; cbn [negb].
  - split.
    + split; [by intros [e ?]|]. intros [Hex|?]; [|done].
      apply Exists_exists in Hex as (fv & Hin & Hfv).
      rewrite Forall_forall in Hall. specialize (Hall fv Hin). congruence.
    + by intros url r [= <- <-].
  - split; [|done]. split; [|by eexists]. intros _. by right.
Qed.

Variable safe_abspath : string -> result string.
Variable from_file : string -> geometry -> option string -> pd.DataFrame.
Variable file_srs : string.
Variable GEOMETRY_LIMIT : Z.

(** X25. What [GeometryFileSource.process] returns follows the mode and the
    projection of the request: an extent exactly in extent mode, and that
    extent is None exactly when the file gives no rows for the bbox; a
    table of features in the other modes. *)
Theorem GeometryFileSource_process_response (url : string)
    (request : GeometryFileSource.file_request) (data : geometry_data) :
  GeometryFileSource.process safe_abspath from_file file_srs GEOMETRY_LIMIT
    url request = Ok data ->
  let req := GeometryFileSource.request request in
  match data with
  | Extent extent projection =>
      req_mode req = "extent" /\ projection = req_projection req
      /\ (extent = None <->
          exists path, safe_abspath url = Ok path
            /\ pd.len (from_file path (req_geometry req)
                         (GeometryFileSource.layer request)) = 0%nat)
  | Features _ projection =>
      req_mode req <> "extent" /\ projection = req_projection req
  | EmptyMarker _ => False
  end.
Proof.
  unfold GeometryFileSource.process.
  destruct (safe_abspath url) as [path|e]; [|done]. cbn [mbind result_bind].
  destruct (Nat.eqb_spec
    (pd.len (from_file path (req_geometry (GeometryFileSource.request request))
               (GeometryFileSource.layer request))) 0) as [Hlen|Hlen].
  { destruct (decide _) as [Hm|Hm]; intros [= <-]; simpl; [|done].
    split; [done|]. split; [done|]. split; [|done]. intros _. by exists path. }
  destruct (GeometryFileSource.select _ _ _) as [f|e]; [|done].
  cbn [mbind result_bind].
  destruct (decide _) as [Hm|Hm].
  - destruct (pd.getitem f "geometry") as [g|e]; [|done].
    cbn [mbind result_bind]. intros [= <-]. simpl.
    split; [done|]. split; [done|]. split; [done|].
    intros (path' & [= <-] & Hlen'). done.
  - destruct (GeometryFileSource.apply_limit _ _ _) as [f'|e]; [|done].
    cbn [mbind result_bind]. by intros [= <-].
Qed.

Lemma filter_rows_geometry (f : pd.DataFrame) (mask : list bool)
    (col : list (option cell)) :
  pd.columns (pd.filter_rows f mask) !! "geometry" = Some col ->
  exists col0, pd.columns f !! "geometry" = Some col0
    /\ col = np.compress col0 mask.
Proof.
  unfold pd.filter_rows. simpl. rewrite lookup_fmap.
  destruct (pd.columns f !! "geometry") as [col0|]; [|done].
  intros [= <-]. by exists col0.
Qed.

Lemma select_geometry (request : GeometryFileSource.file_request)
    (f0 f : pd.DataFrame) (col : list (option cell)) :
  GeometryFileSource.select file_srs request f0 = Ok f ->
  pd.columns f !! "geometry" = Some col ->
  Forall (fun c => exists g, c = Some (Geom g)
            /\ (if decide (req_mode (GeometryFileSource.request request) = "centroid")
                then centroid_within g (req_geometry (GeometryFileSource.request request))
                else intersects g (req_geometry (GeometryFileSource.request request)))
               = true) col.
Proof.
  unfold GeometryFileSource.select.
  destruct (pd.set_index f0 _) as [f1|e]; [|done]. cbn [mbind result_bind].
  match goal with
  | |- (mbind _ (pd.getitem ?fr "geometry")) = _ -> _ =>
      destruct (pd.getitem fr "geometry") as [g1|e]; [|done]
  end.
  cbn [mbind result_bind].
  match goal with
  | |- (mbind _ ?m) = _ -> _ => destruct m as [f2|e]; [|done]
  end.
  cbn [mbind result_bind].
  destruct (pd.getitem f2 "geometry") as [g2|e] eqn:Hg2; [|done].
  cbn [mbind result_bind].
  unfold pd.getitem in Hg2.
  destruct (pd.columns f2 !! "geometry") as [col2|] eqn:Hcol2; [|done].
  injection Hg2 as <-. simpl.
  destruct (decide _) as [Hm|Hm]; intros [= <-] Hcol;
    apply filter_rows_geometry in Hcol as (col0 & Hcol0 & ->);
    rewrite Hcol2 in Hcol0; injection Hcol0 as <-.
  - eapply Forall_impl; [apply compress_map_Forall|]. simpl.
    intros [[g| |]|] Hc; try done. by exists g.
  - eapply Forall_impl; [apply compress_map_Forall|]. simpl.
    intros [[g| |]|] Hc; try done. by exists g.
Qed.

(** X26. Every row of a table that [GeometryFileSource.process] returns has a
    geometry that intersects the requested geometry (in centroid mode: whose
    centroid lies within it); the limit never lets another row through. *)
Theorem GeometryFileSource_process_rows_match (url : string)
    (request : GeometryFileSource.file_request) (f : pd.DataFrame)
    (projection : string) (col : list (option cell)) :
  GeometryFileSource.process safe_abspath from_file file_srs GEOMETRY_LIMIT
    url request = Ok (Features f projection) ->
  pd.columns f !! "geometry" = Some col ->
  Forall (fun c => exists g, c = Some (Geom g)
            /\ (if decide (req_mode (GeometryFileSource.request request) = "centroid")
                then centroid_within g (req_geometry (GeometryFileSource.request request))
                else intersects g (req_geometry (GeometryFileSource.request request)))
               = true) col.
Proof.
  unfold GeometryFileSource.process.
  destruct (safe_abspath url) as [path|e]; [|done]. cbn [mbind result_bind].
  destruct (pd.len _ =? 0)%nat.
  { destruct (decide _); [done|]. intros [= <- <-]. done. }
  destruct (GeometryFileSource.select _ _ _) as [f1|e] eqn:Hsel; [|done].
  cbn [mbind result_bind].
  destruct (decide _) as [Hm|Hm].
  { destruct (pd.getitem f1 "geometry"); done. }
  unfold GeometryFileSource.apply_limit.
  destruct (truthy _ && _).
  - cbn [mbind result_bind]. intros [= <- <-]. unfold pd.iloc_to. simpl.
    rewrite lookup_fmap.
    destruct (pd.columns f1 !! "geometry") as [col1|] eqn:Hcol1; [|done].
    intros [= <-]. apply Forall_take. by eapply select_geometry.
  - destruct (bool_decide (req_limit _ = None)).
    + destruct (bool_decide (GEOMETRY_LIMIT < _)); [done|].
      cbn [mbind result_bind]. intros [= <- <-] Hcol. by eapply select_geometry.
    + cbn [mbind result_bind]. intros [= <- <-] Hcol. by eapply select_geometry.
Qed.

(** X27. A table that [GeometryFileSource.process] returns respects the limit in
    force: it has at most [limit] rows for a positive limit in the request,
    and at most the global limit without limit in the request. *)
Theorem GeometryFileSource_process_respects_limit (url : string)
    (request : GeometryFileSource.file_request) (f : pd.DataFrame)
    (projection : string) :
  GeometryFileSource.process safe_abspath from_file file_srs GEOMETRY_LIMIT
    url request = Ok (Features f projection) ->
  match req_limit (GeometryFileSource.request request) with
  | Some limit => 0 < limit -> Z.of_nat (pd.len f) <= limit
  | None => 0 <= GEOMETRY_LIMIT -> Z.of_nat (pd.len f) <= GEOMETRY_LIMIT
  end.
Proof.
  unfold GeometryFileSource.process.
  destruct (safe_abspath url) as [path|e]; [|done]. cbn [mbind result_bind].
  destruct (pd.len _ =? 0)%nat.
  { destruct (decide _); [done|]. intros [= <- <-].
    unfold pd.len. destruct (req_limit _); simpl; lia. }
  destruct (GeometryFileSource.select _ _ _) as [f1|e] eqn:Hsel; [|done].
  cbn [mbind result_bind].
  destruct (decide _) as [Hm|Hm].
  { destruct (pd.getitem f1 "geometry"); done. }
  destruct (req_limit (GeometryFileSource.request request)) as [limit|].
  - intros Hok Hpos.
    destruct (apply_limit_positive GEOMETRY_LIMIT limit f1 Hpos)
      as (f' & Hf' & _ & Hlen).
    rewrite Hf' in Hok. cbn [mbind result_bind] in Hok.
    by injection Hok as <- <-.
  - rewrite apply_limit_default. case_bool_decide as Hgl; [done|].
    cbn [mbind result_bind]. intros [= <- <-] _. lia.
Qed.

End file_source.

Lemma GeometryFileSource_process_response_witness :
  req_mode (GeometryFileSource.request (Parcels.window (Some 2))) <> "extent"
  /\ "EPSG:28992"
     = req_projection (GeometryFileSource.request (Parcels.window (Some 2))).
Proof.
  apply (GeometryFileSource_process_response (H := Rectangles.engine)
           (fun url => Ok url) (fun _ _ _ => Parcels.file) "EPSG:28992" 1000
           "parcels.shp" (Parcels.window (Some 2))
           (Features Runs.first_two "EPSG:28992")).
  reflexivity.
Defined.

Lemma GeometryFileSource_process_rows_match_witness :
  Forall (fun c => exists g, c = Some (@Geom Rectangles.engine g)
            /\ (if decide (req_mode (GeometryFileSource.request
                                       (Parcels.window (Some 2))) = "centroid")
                then centroid_within g
                       (req_geometry (GeometryFileSource.request
                                        (Parcels.window (Some 2))))
                else intersects g
                       (req_geometry (GeometryFileSource.request
                                        (Parcels.window (Some 2)))))
               = true)
    [Some (@Geom Rectangles.engine (0, 0, 1, 1));
     Some (@Geom Rectangles.engine (1, 1, 2, 2))].
Proof.
  apply (GeometryFileSource_process_rows_match (H := Rectangles.engine)
           (fun url => Ok url) (fun _ _ _ => Parcels.file) "EPSG:28992" 1000
           "parcels.shp" (Parcels.window (Some 2)) Runs.first_two "EPSG:28992").
  - reflexivity.
  - reflexivity.
Defined.

Lemma GeometryFileSource_process_respects_limit_witness :
  Z.of_nat (pd.len Runs.first_two) <= 2.
Proof.
  refine (GeometryFileSource_process_respects_limit (H := Rectangles.engine)
            (fun url => Ok url) (fun _ _ _ => Parcels.file) "EPSG:28992" 1000
            "parcels.shp" (Parcels.window (Some 2)) Runs.first_two "EPSG:28992"
            _ _).
  - reflexivity.
  - lia.
Defined.

(** ** [Intersection] *)

Section intersection.
Context `{GeometryEngine}.
Variable intersection : geometry -> geometry -> geometry.


(** X29. [Intersection.process] on an extent gives the box of the points that lie
    in the extent and in the bounds of the requested geometry, in the
    projection of the source; unlike [Clip.extent] it returns that box also
    when it has no interior, which is exactly when [Clip.extent] of the two
    boxes is None. *)
Theorem Intersection_process_extent (extent : bbox) (p : string) (g : geometry) :
  exists b,
    Intersection.process intersection (Extent (Some extent) p) g
      = Ok (Some (Extent (Some b) p))
    /\ (forall x y, inside b x y <-> inside extent x y /\ inside (bounds g) x y)
    /\ (~ degenerate_window b ->
        Clip.extent (Some extent) (Some (bounds g)) = Some b)
    /\ (degenerate_window b ->
        Clip.extent (Some extent) (Some (bounds g)) = None).
Proof.
  destruct extent as [[[ax1 ay1] ax2] ay2].
  unfold Intersection.process, Clip.extent.
  destruct (bounds g) as [[[bx1 by1] bx2] by2].
  eexists. split; [reflexivity|]. split; [|split].
  - intros x y. unfold inside. rewrite !max_le_iff, !min_ge_iff. tauto.
  - intros Hd. by rewrite decide_False.
  - intros Hd. by rewrite decide_True.
Qed.

Variable safe_abspath : string -> result string.
Variable from_file : string -> geometry -> option string -> pd.DataFrame.
Variable file_srs : string.
Variable GEOMETRY_LIMIT : Z.

(** X30. The extent of an [Intersection] over a file that gives no rows for the
    bbox of the request: the file source answers with the extent None, and
    [Intersection.process] fails on it with a TypeError. *)
Theorem Intersection_of_empty_extent_raises (url path : string)
    (request : GeometryFileSource.file_request) (g : geometry) :
  safe_abspath url = Ok path ->
  pd.len (from_file path (req_geometry (GeometryFileSource.request request))
            (GeometryFileSource.layer request)) = 0%nat ->
  req_mode (GeometryFileSource.request request) = "extent" ->
  exists data,
    GeometryFileSource.process safe_abspath from_file file_srs GEOMETRY_LIMIT
      url request = Ok data
    /\ Intersection.process intersection data g
       = Raise (TypeError "'NoneType' object is not subscriptable").
Proof.
  intros Hpath Hlen Hmode. unfold GeometryFileSource.process.
  rewrite Hpath. cbn [mbind result_bind]. rewrite Hlen. simpl.
  rewrite decide_True by done. by eexists.
Qed.

End intersection.


Lemma Intersection_of_empty_extent_raises_witness :
  exists data : @geometry_data Rectangles.engine,
    GeometryFileSource.process (H := Rectangles.engine) (fun url => Ok url) (fun _ _ _ => pd.empty_frame)
      "EPSG:28992" 1000 "parcels.shp" Runs.extent_window = Ok data
    /\ Intersection.process (H := Rectangles.engine) Runs.common data (0, 0, 1, 5)
       = Raise (TypeError "'NoneType' object is not subscriptable").
Proof.
  apply (Intersection_of_empty_extent_raises (H := Rectangles.engine) Runs.common
           (fun url => Ok url) (fun _ _ _ => pd.empty_frame) "EPSG:28992" 1000
           "parcels.shp" "parcels.shp" Runs.extent_window (0, 0, 1, 5)).
  - reflexivity.
  - reflexivity.
  - reflexivity.
Defined.
